(** * Feature preparation and evaluation harness of the fraud classifier

    A shallow embedding of the classes and functions defined in
    [transaction_fraud_classifier.ipynb]: [Datasets], [AttributeSelector],
    [MyLabelBinarizer], [prevTxFeatures], the [data_prep_pipeline] feature
    union and the confusion-matrix metrics.

    pandas, numpy and scikit-learn are libraries the notebook calls; the
    part of their documented behaviour the notebook relies on is written
    out next to each use.  Python exceptions are [None]. *)

From Stdlib Require Import QArith Qround Qminmax.
From stdpp Require Import base option list strings gmap sorting.

Open Scope Z_scope.
Open Scope nat_scope.

(** ** numpy arrays

    A 2-D array is kept column by column, the way the notebook reads it
    ([x[:,col]], [np.hstack]); in a well-formed array all columns have the
    same number of rows. *)
Module np.

Abbreviation ndarray A := (list (list A)).

Definition shape1 {A} (x : ndarray A) : nat := length x.

Definition well_formed {A} (n : nat) (x : ndarray A) : Prop :=
  Forall (λ col, length col = n) x.

(** [x[i,:]] *)
Definition row {A} (i : nat) (x : ndarray A) : option (list A) :=
  mapM (λ col : list A, col !! i) x.

(** Strings compare as Python's [str] does on ASCII text: code point by
    code point. *)
Definition str_lt (a b : string) : bool :=
  match String.compare a b with Lt => true | _ => false end.

(** Insert into a sorted duplicate-free list, keeping it so. *)
Fixpoint insert_sorted (a : string) (l : list string) : list string :=
  match l with
  | [] => [a]
  | b :: l' =>
      if String.eqb a b then l
      else if str_lt a b then a :: l
      else b :: insert_sorted a l'
  end.

(** [np.unique(y)]: the sorted distinct values of [y]. *)
Definition unique (y : list string) : list string :=
  foldr insert_sorted [] y.

(** [np.hstack(blocks)]: blocks side by side; an empty list of blocks
    raises [ValueError]. *)
Definition hstack {A} (blocks : list (ndarray A)) : option (ndarray A) :=
  match blocks with
  | [] => None
  | _ => Some (concat blocks)
  end.

End np.

(** ** pandas data frames *)
Module pd.

Inductive dtype : Set := int64 | float64 | bool_ | object | category.

Global Instance dtype_eq_dec : EqDecision dtype.
Proof. solve_decision. Defined.

(** A cell of a frame: a number, a string, or the missing value. *)
Inductive cell : Type :=
  | Num (x : Q)
  | Str (s : string)
  | NaN.

Record Series : Type := mkSeries {
  name : string;
  dt : dtype;
  values : list cell
}.

(** A frame is its row labels and its columns, left to right. *)
Record DataFrame : Type := mkDataFrame {
  index : list nat;
  columns : list Series
}.

Definition column_names (X : DataFrame) : list string :=
  name <$> columns X.

Definition len (X : DataFrame) : nat := length (index X).

(** Every column has one cell per row label, and column names are not
    repeated: a record is a mapping from column name to value. *)
Definition well_formed (X : DataFrame) : Prop :=
  Forall (λ c, length (values c) = len X) (columns X) ∧
  NoDup (column_names X).

(** [X.select_dtypes(include=dts)] and [X.select_dtypes(exclude=dts)] *)
Definition select_dtypes_include (dts : list dtype) (X : DataFrame) : DataFrame :=
  mkDataFrame (index X) (filter (λ c, dt c ∈ dts) (columns X)).

Definition select_dtypes_exclude (dts : list dtype) (X : DataFrame) : DataFrame :=
  mkDataFrame (index X) (filter (λ c, dt c ∉ dts) (columns X)).

(** [X[names]]: for each requested name the columns carrying it, in the
    order requested; [KeyError] when a name is carried by no column. *)
Definition getitem_list (X : DataFrame) (names : list string) : option DataFrame :=
  cols ← mapM (λ nm,
            match filter (λ c, name c = nm) (columns X) with
            | [] => None
            | cs => Some cs
            end) names;
  Some (mkDataFrame (index X) (concat cols)).

(** [X.values] *)
Definition to_values (X : DataFrame) : np.ndarray cell :=
  values <$> columns X.

End pd.

(** ** AttributeSelector *)
Module AttributeSelector.
Import pd.

(** The instance: the constructor argument and the attribute
    [attribute_names], absent until something assigns it. *)
Record t : Type := mk {
  quantitative : bool;
  attribute_names : option (list string)
}.

Definition __init__ (quantitative : bool) : t := mk quantitative None.

Definition fit (self : t) (X : DataFrame) : t := self.

Definition transform (self : t) (X : DataFrame) : option (t * np.ndarray cell) :=
  let names :=
    if quantitative self
    then column_names (select_dtypes_exclude [object; category] X)
    else column_names (select_dtypes_include [object; category] X) in
  let self' := mk (quantitative self) (Some names) in
  sel ← getitem_list X names;
  Some (self', to_values sel).

(** [TransformerMixin.fit_transform]: [self.fit(X).transform(X)] *)
Definition fit_transform (self : t) (X : DataFrame) : option (t * np.ndarray cell) :=
  transform (fit self X) X.

End AttributeSelector.

(** ** MyLabelBinarizer *)
Module MyLabelBinarizer.

(** [sklearn.utils.multiclass.type_of_target] on a 1-D array of labels:
    at most two distinct values is a binary target. *)
Inductive target_type : Set := binary | multiclass.

Definition type_of_target (y : list string) : target_type :=
  if decide (length (np.unique y) ≤ 2) then binary else multiclass.

(** [sklearn.preprocessing.label_binarize(y, classes=classes)] with the
    default labels 0 and 1 and dense output, for [classes] sorted and
    duplicate-free as [np.unique] returns them (the library's column
    reordering for unsorted [classes] is then the identity):
    - an empty [y] is refused, and so is a binary target with no class
      (there is no last column to keep);
    - a binary target with one class gives one column of zeros;
    - otherwise column [j] marks the rows equal to [classes[j]];
    - of a binary target only the last column is kept. *)
Definition indicator (y : list string) (c : string) : list Z :=
  (λ v, if String.eqb v c then 1%Z else 0%Z) <$> y.

Definition label_binarize (y : list string) (classes : list string)
  : option (np.ndarray Z) :=
  match y with
  | [] => None
  | _ =>
      match type_of_target y, length classes with
      | binary, 0 => None
      | binary, 1 => Some [replicate (length y) 0%Z]
      | binary, 2 => Some (drop 1 (indicator y <$> classes))
      | _, _ => Some (indicator y <$> classes)
      end
  end.

Inductive t : Set := mk.

Definition fit (self : t) (x : np.ndarray string) : t := self.

Definition transform (self : t) (x : np.ndarray string) : option (np.ndarray Z) :=
  transformations ← mapM (λ col, label_binarize col (np.unique col)) x;
  np.hstack transformations.

Definition fit_transform (self : t) (x : np.ndarray string) : option (np.ndarray Z) :=
  transform (fit self x) x.

End MyLabelBinarizer.

(** ** The interpreter state

    Frames live in a store and are named by references, so that two names
    for one frame ([data] and [self.original_data]) are one location.
    numpy's global random generator is part of the state as well. *)
Module py.

Abbreviation loc := positive.

Section RandomState.
Context {RandomState : Type}.

Record state : Type := mkState {
  heap : gmap loc pd.DataFrame;
  global_rng : RandomState
}.

(** A location no frame occupies yet. *)
Definition fresh_loc (h : gmap loc pd.DataFrame) : loc := fresh (dom h).

Definition alloc (X : pd.DataFrame) (σ : state) : state * loc :=
  let l := fresh_loc (heap σ) in
  (mkState (<[l := X]> (heap σ)) (global_rng σ), l).

Definition store (l : loc) (X : pd.DataFrame) (σ : state) : state :=
  mkState (<[l := X]> (heap σ)) (global_rng σ).

End RandomState.
Global Arguments state : clear implicits.

End py.

(** ** More of pandas: the operations [Datasets] uses *)
Module pdops.
Import pd.

(** [X.drop(labels, axis=1)]: a new frame without the columns named in
    [labels]; [KeyError] when a label names no column. *)
Definition drop_columns (labels : list string) (X : DataFrame) : option DataFrame :=
  if decide (Forall (λ lbl, lbl ∈ column_names X) labels)
  then Some (mkDataFrame (index X) (filter (λ c, name c ∉ labels) (columns X)))
  else None.

(** [s.fillna(value)] on one column *)
Definition fillna (value : cell) (s : Series) : Series :=
  mkSeries (name s) (dt s)
    ((λ v, match v with NaN => value | _ => v end) <$> values s).

(** [X.<attr>.fillna(value, inplace=True)]: the column named [attr] of
    [X] is filled in place; [AttributeError] when there is none. *)
Definition fillna_column (attr : string) (value : cell) (X : DataFrame) : option DataFrame :=
  if decide (attr ∈ column_names X)
  then Some (mkDataFrame (index X)
               ((λ c, if decide (name c = attr) then fillna value c else c) <$> columns X))
  else None.

(** [X.iloc[ind]]: the rows at the positions [ind], in that order;
    [IndexError] for a position past the end. *)
Definition take_rows (ind : list nat) (X : DataFrame) : option DataFrame :=
  idx ← mapM (λ i, index X !! i) ind;
  cols ← mapM (λ c, vs ← mapM (λ i, values c !! i) ind;
                    Some (mkSeries (name c) (dt c) vs)) (columns X);
  Some (mkDataFrame idx cols).

(** [X[label]]: one column together with the row labels of its frame;
    [KeyError] when there is none. *)
Definition getitem (label : string) (X : DataFrame) : option (list nat * Series) :=
  c ← head (filter (λ c, name c = label) (columns X));
  Some (index X, c).

(** The record at a position: its row label and its cells. *)
Definition record_at (X : DataFrame) (i : nat) : option (nat * list cell) :=
  lbl ← index X !! i;
  cells ← np.row i (to_values X);
  Some (lbl, cells).

Definition records (X : DataFrame) : list (nat * list cell) :=
  omap (record_at X) (seq 0 (len X)).

End pdops.

(** ** train_test_split *)
Module model_selection.
Import pd pdops.

Section RandomState.
(** [np.random.RandomState]: seeding, and [rng.permutation(n)], which
    numpy documents to return the integers below [n] in some order. *)
Context {RandomState : Type}.
Variable RandomState_seed : nat → RandomState.
Variable rng_permutation : RandomState → nat → list nat * RandomState.

(** [check_random_state]: an integer seeds a new generator and leaves the
    global one alone; [None] draws from the global one. *)
Definition permutation_with (random_state : option nat) (n : nat)
    (σ : py.state RandomState) : list nat * py.state RandomState :=
  match random_state with
  | Some s => ((rng_permutation (RandomState_seed s) n).1, σ)
  | None =>
      let '(p, g) := rng_permutation (py.global_rng σ) n in
      (p, py.mkState (py.heap σ) g)
  end.

Definition Qlt_bool (a b : Q) : bool := negb (Qle_bool b a).

(** [_validate_shuffle_split] for a float [test_size] and no
    [train_size]: the fraction lies strictly between 0 and 1,
    [n_test = ceil(test_size * n_samples)], the rest is for training and
    must not be empty. *)
Definition validate_shuffle_split (n_samples : nat) (test_size : Q) : option (nat * nat) :=
  if Qlt_bool 0 test_size && Qlt_bool test_size 1
  then
    let n_test := Z.to_nat (Qceiling (test_size * inject_Z (Z.of_nat n_samples))) in
    let n_train := n_samples - n_test in
    if decide (n_train = 0) then None else Some (n_train, n_test)
  else None.

(** The positions [ShuffleSplit] hands out: the first [n_test] entries of
    the permutation test, the next [n_train] train. *)
Definition split_indices (n_train n_test : nat) (permutation : list nat)
  : list nat * list nat :=
  (take n_train (drop n_test permutation), take n_test permutation).

Definition train_test_split (X : DataFrame) (test_size : Q) (random_state : option nat)
    (σ : py.state RandomState)
  : option ((DataFrame * DataFrame) * py.state RandomState) :=
  '(n_train, n_test) ← validate_shuffle_split (len X) test_size;
  let '(permutation, σ') := permutation_with random_state (len X) σ in
  let '(ind_train, ind_test) := split_indices n_train n_test permutation in
  train ← take_rows ind_train X;
  test ← take_rows ind_test X;
  Some ((train, test), σ').

End RandomState.
End model_selection.

(** ** Datasets *)
Module Datasets.
Import pd pdops.

(** The instance.  [original_data] and [data] are references into the
    store; the copies made after the split are referenced by nothing else
    and are kept by value.  A label series carries the row labels of the
    frame it was taken from. *)
Record t : Type := mk {
  original_data : py.loc;
  data : py.loc;
  train_set : DataFrame;
  test_set : DataFrame;
  X_Train_DF : DataFrame;
  Y_Train : list nat * Series;
  X_Test_DF : DataFrame;
  Y_Test : list nat * Series
}.


Section RandomState.
Context {RandomState : Type}.
Variable RandomState_seed : nat → RandomState.
Variable rng_permutation : RandomState → nat → list nat * RandomState.

Definition __init__ (data : py.loc) (test_size : Q) (σ : py.state RandomState)
  : option (t * py.state RandomState) :=
  X ← py.heap σ !! data;
  let original_data := data in
  dropped ← drop_columns ["data_chunk"; "txOrder"; "fromId"; "toId"]%string X;
  let '(σ1, self_data) := py.alloc dropped σ in
  X1 ← py.heap σ1 !! self_data;
  filled ← fillna_column "previousTxType" (Str "First") X1;
  let σ2 := py.store self_data filled σ1 in
  X2 ← py.heap σ2 !! self_data;
  '((train_set, test_set), σ3) ←
    model_selection.train_test_split RandomState_seed rng_permutation
      X2 test_size (Some 42) σ2;
  X_Train_DF ← drop_columns ["fraudulentTx"]%string train_set;
  Y_Train ← getitem "fraudulentTx" train_set;
  X_Test_DF ← drop_columns ["fraudulentTx"]%string test_set;
  Y_Test ← getitem "fraudulentTx" test_set;
  Some (mk original_data self_data train_set test_set
           X_Train_DF Y_Train X_Test_DF Y_Test, σ3).

End RandomState.

(** What a run hands to the rest of the notebook. *)
Definition partitions (self : t)
  : DataFrame * DataFrame * (DataFrame * (list nat * Series))
    * (DataFrame * (list nat * Series)) :=
  (train_set self, test_set self, (X_Train_DF self, Y_Train self),
   (X_Test_DF self, Y_Test self)).

End Datasets.

(** ** prevTxFeatures *)
Module features.
Import pd.

(** [data.iloc[:i+1, j].tail(lastK)] *)
Definition iloc_tail (i j lastK : nat) (data : DataFrame) : option (list cell) :=
  c ← columns data !! j;
  let upto := take (i + 1) (values c) in
  Some (drop (length upto - lastK) upto).

(** [data.iloc[i, j] = v]; [IndexError] outside the frame. *)
Definition iloc_set (i j : nat) (v : cell) (data : DataFrame) : option DataFrame :=
  c ← columns data !! j;
  if decide (i < length (values c))
  then Some (mkDataFrame (index data)
               (<[j := mkSeries (name c) (dt c) (<[i := v]> (values c))]> (columns data)))
  else None.

(** The numbers of a series with the missing values skipped, as the
    reductions do by default; a string makes them raise. *)
Fixpoint numbers (s : list cell) : option (list Q) :=
  match s with
  | [] => Some []
  | Num x :: s' => (x ::.) <$> numbers s'
  | NaN :: s' => numbers s'
  | Str _ :: _ => None
  end.

Definition Qsum (l : list Q) : Q := foldr Qplus 0%Q l.

(** [s.min()], [s.mean()], [s.max()]: the missing value when nothing is
    left to reduce. *)
Definition series_min (nums : list Q) : cell :=
  match nums with [] => NaN | x :: r => Num (foldl Qmin x r) end.

Definition series_max (nums : list Q) : cell :=
  match nums with [] => NaN | x :: r => Num (foldl Qmax x r) end.

Definition series_mean (nums : list Q) : cell :=
  match nums with
  | [] => NaN
  | _ => Num (Qred (Qsum nums / inject_Z (Z.of_nat (length nums))))
  end.

(** The body of the loop for one [i]. *)
Definition prevTxFeatures_step (lastK i : nat) (data : DataFrame) : option DataFrame :=
  last7TxAmount ← iloc_tail i 2 lastK data;
  nums ← numbers last7TxAmount;
  data ← iloc_set i 7 (series_min nums) data;
  data ← iloc_set i 8 (series_mean nums) data;
  iloc_set i 9 (series_max nums) data.

Fixpoint for_each (body : nat → DataFrame → option DataFrame)
    (range : list nat) (data : DataFrame) : option DataFrame :=
  match range with
  | [] => Some data
  | i :: range' => data' ← body i data; for_each body range' data'
  end.

Definition prevTxFeatures (data : DataFrame) (lastK : nat) : option DataFrame :=
  for_each (prevTxFeatures_step lastK) (seq 0 (len data)) data.

Definition default_lastK : nat := 7.

(** The three feature cells of row [i]. *)
Definition features_at (i : nat) (data : DataFrame) : option (cell * cell * cell) :=
  c7 ← columns data !! 7; c8 ← columns data !! 8; c9 ← columns data !! 9;
  mn ← values c7 !! i; me ← values c8 !! i; mx ← values c9 !! i;
  Some (mn, me, mx).

(** The window of the notebook's description, "the previous 7
    transaction": the [lastK] transactions before transaction [i],
    without transaction [i] itself. *)
Definition prior_window (lastK i : nat) (amounts : list Q) : list Q :=
  let before := take i amounts in
  drop (length before - lastK) before.


Definition summary (nums : list Q) : cell * cell * cell :=
  (series_min nums, series_mean nums, series_max nums).

End features.

(** ** StandardScaler

    scikit-learn's scaler with its defaults.  Numbers are rationals, the
    exact values the floating-point results approximate; the square root
    is a parameter. *)
Module StandardScaler.
Import pd.

Section sqrt.
Variable sqrt : Q → Q.

Record t : Type := mk {
  mean_ : option (list cell);
  scale_ : option (list cell)
}.

Definition __init__ : t := mk None None.

(** [check_array]: at least one column and one row, and nothing that is
    not a number or the missing value. *)
Definition check_array (x : np.ndarray cell) : option (np.ndarray cell) :=
  match x with
  | [] => None
  | col :: _ =>
      if decide (length col = 0) then None
      else _ ← mapM features.numbers x; Some x
  end.

Definition column_mean (col : list cell) : cell :=
  match features.numbers col with
  | Some nums => features.series_mean nums
  | None => NaN
  end.

(** Population variance of the numbers present. *)
Definition column_var (col : list cell) : cell :=
  match features.numbers col, column_mean col with
  | Some nums, Num m =>
      features.series_mean ((λ v, (v - m) * (v - m))%Q <$> nums)
  | _, _ => NaN
  end.

(** The standard deviation, with a zero deviation replaced by 1. *)
Definition column_scale (col : list cell) : cell :=
  match column_var col with
  | Num v => let s := sqrt v in if Qeq_bool s 0 then Num 1 else Num s
  | _ => NaN
  end.

Definition fit (self : t) (x : np.ndarray cell) : option t :=
  x ← check_array x;
  Some (mk (Some (column_mean <$> x)) (Some (column_scale <$> x))).

Definition standardize (m s v : cell) : cell :=
  match v, m, s with
  | Num v, Num m, Num s => Num (Qred ((v - m) / s))
  | _, _, _ => NaN
  end.

(** [transform] needs a fitted scaler and one statistic per column. *)
Definition transform (self : t) (x : np.ndarray cell) : option (np.ndarray cell) :=
  ms ← mean_ self;
  ss ← scale_ self;
  x ← check_array x;
  if decide (length x = length ms)
  then Some (zip_with (λ (col : list cell) '(m, s), standardize m s <$> col) x (zip ms ss))
  else None.

Definition fit_transform (self : t) (x : np.ndarray cell) : option (t * np.ndarray cell) :=
  self' ← fit self x;
  out ← transform self' x;
  Some (self', out).

End sqrt.
End StandardScaler.

(** ** The preparation pipeline

    [quant_pipeline], [qual_pipeline] and their [FeatureUnion],
    [data_prep_pipeline].  The steps are objects fitted in place, so the
    union is the record of its four steps. *)
Module data_prep_pipeline.
Import pd.

Record t : Type := mk {
  quant_selector : AttributeSelector.t;
  std_scaler : StandardScaler.t;
  qual_selector : AttributeSelector.t;
  label_binarizer : MyLabelBinarizer.t
}.

Definition __init__ : t :=
  mk (AttributeSelector.__init__ true) StandardScaler.__init__
     (AttributeSelector.__init__ false) MyLabelBinarizer.mk.

(** The qualitative array as the binarizer reads it: an array of
    strings.  (A missing value among strings makes [np.unique] raise.) *)
Definition as_labels (x : np.ndarray cell) : option (np.ndarray string) :=
  mapM (mapM (λ v, match v with Str s => Some s | _ => None end)) x.

Definition as_numbers (x : np.ndarray Z) : np.ndarray cell :=
  fmap (M:=list) (fmap (M:=list) (λ z, Num (inject_Z z))) x.

Section sqrt.
Variable sqrt : Q → Q.

Definition quant_fit_transform (self : t) (X : DataFrame) : option (t * np.ndarray cell) :=
  '(selector, Xt) ← AttributeSelector.fit_transform (quant_selector self) X;
  '(scaler, Xt) ← StandardScaler.fit_transform sqrt (std_scaler self) Xt;
  Some (mk selector scaler (qual_selector self) (label_binarizer self), Xt).

Definition quant_transform (self : t) (X : DataFrame) : option (t * np.ndarray cell) :=
  '(selector, Xt) ← AttributeSelector.transform (quant_selector self) X;
  Xt ← StandardScaler.transform (std_scaler self) Xt;
  Some (mk selector (std_scaler self) (qual_selector self) (label_binarizer self), Xt).

Definition qual_fit_transform (self : t) (X : DataFrame) : option (t * np.ndarray cell) :=
  '(selector, Xt) ← AttributeSelector.fit_transform (qual_selector self) X;
  Xt ← as_labels Xt;
  Xt ← MyLabelBinarizer.fit_transform (label_binarizer self) Xt;
  Some (mk (quant_selector self) (std_scaler self) selector (label_binarizer self),
        as_numbers Xt).

Definition qual_transform (self : t) (X : DataFrame) : option (t * np.ndarray cell) :=
  '(selector, Xt) ← AttributeSelector.transform (qual_selector self) X;
  Xt ← as_labels Xt;
  Xt ← MyLabelBinarizer.transform (label_binarizer self) Xt;
  Some (mk (quant_selector self) (std_scaler self) selector (label_binarizer self),
        as_numbers Xt).

(** [FeatureUnion.fit_transform] and [FeatureUnion.transform]: each
    branch in turn on the same [X], results side by side. *)
Definition fit_transform (self : t) (X : DataFrame) : option (t * np.ndarray cell) :=
  '(self, quant) ← quant_fit_transform self X;
  '(self, qual) ← qual_fit_transform self X;
  Xs ← np.hstack [quant; qual];
  Some (self, Xs).

Definition transform (self : t) (X : DataFrame) : option (t * np.ndarray cell) :=
  '(self, quant) ← quant_transform self X;
  '(self, qual) ← qual_transform self X;
  Xs ← np.hstack [quant; qual];
  Some (self, Xs).

End sqrt.
End data_prep_pipeline.

(** ** Confusion matrix and the scores derived from it *)
Module metrics.

(** How often the true label is [i] and the predicted one [j]. *)
Definition count (i j : bool) (y_true y_pred : list bool) : nat :=
  length (filter (λ tp, tp.1 = i ∧ tp.2 = j) (zip y_true y_pred)).

(** [unique_labels]: the labels occurring in either vector, sorted. *)
Definition unique_labels (y_true y_pred : list bool) : list bool :=
  filter (λ l, l ∈ y_true ++ y_pred) [false; true].

(** [confusion_matrix(y_true, y_pred)]: rows are true labels, columns
    predicted ones; vectors of different lengths raise. *)
Definition confusion_matrix (y_true y_pred : list bool) : option (list (list nat)) :=
  if decide (length y_true = length y_pred)
  then
    let labels := unique_labels y_true y_pred in
    Some ((λ i, (λ j, count i j y_true y_pred) <$> labels) <$> labels)
  else None.

(** [_prf_divide]: a zero denominator gives 0. *)
Definition prf_divide (numerator denominator : nat) : Q :=
  if decide (denominator = 0) then 0%Q
  else (inject_Z (Z.of_nat numerator) / inject_Z (Z.of_nat denominator))%Q.

Definition tp_sum (y_true y_pred : list bool) : nat := count true true y_true y_pred.
Definition pred_sum (y_pred : list bool) : nat := length (filter (λ b, b = true) y_pred).
Definition true_sum (y_true : list bool) : nat := length (filter (λ b, b = true) y_true).

Definition precision_score (y_true y_pred : list bool) : option Q :=
  if decide (length y_true = length y_pred)
  then Some (prf_divide (tp_sum y_true y_pred) (pred_sum y_pred))
  else None.

Definition recall_score (y_true y_pred : list bool) : option Q :=
  if decide (length y_true = length y_pred)
  then Some (prf_divide (tp_sum y_true y_pred) (true_sum y_true))
  else None.

End metrics.

(** ** Vocabulary of the properties *)

(** An entry of an encoded matrix is a bit. *)
Definition is_bit (z : Z) : Prop := z = 0%Z ∨ z = 1%Z.

(** The order [np.unique] sorts by. *)
Definition str_before (a b : string) : Prop := np.str_lt a b = true.

(** The names [AttributeSelector.transform] selects for a mode, from the
    frame it is given. *)
Definition matching_names (quantitative : bool) (X : pd.DataFrame) : list string :=
  if quantitative
  then pd.name <$> filter (λ c, pd.dt c ∉ [pd.object; pd.category]) (pd.columns X)
  else pd.name <$> filter (λ c, pd.dt c ∈ [pd.object; pd.category]) (pd.columns X).

(** Name and dtype of each column. *)
Definition schema (X : pd.DataFrame) : list (string * pd.dtype) :=
  (λ c, (pd.name c, pd.dt c)) <$> pd.columns X.

Section split_frame.
Context {RandomState : Type}.
Variable RandomState_seed : nat → RandomState.
Variable rng_permutation : RandomState → nat → list nat * RandomState.

(** The permutation the [Datasets] constructor draws for a frame of [n]
    rows. *)
Definition seeded_permutation (n : nat) : list nat :=
  (rng_permutation (RandomState_seed 42) n).1.

(** The constructor as a function of the frame its argument refers to:
    the working copy, the two sets, and features and labels of each. *)
Definition split_frame (test_size : Q) (X : pd.DataFrame)
  : option (pd.DataFrame * (pd.DataFrame * pd.DataFrame)
            * (pd.DataFrame * (list nat * pd.Series))
            * (pd.DataFrame * (list nat * pd.Series))) :=
  dropped ← pdops.drop_columns ["data_chunk"; "txOrder"; "fromId"; "toId"]%string X;
  filled ← pdops.fillna_column "previousTxType" (pd.Str "First") dropped;
  '(n_train, n_test) ← model_selection.validate_shuffle_split (pd.len filled) test_size;
  let '(ind_train, ind_test) :=
    model_selection.split_indices n_train n_test (seeded_permutation (pd.len filled)) in
  train ← pdops.take_rows ind_train filled;
  test ← pdops.take_rows ind_test filled;
  X_Train_DF ← pdops.drop_columns ["fraudulentTx"]%string train;
  Y_Train ← pdops.getitem "fraudulentTx" train;
  X_Test_DF ← pdops.drop_columns ["fraudulentTx"]%string test;
  Y_Test ← pdops.getitem "fraudulentTx" test;
  Some (filled, (train, test), (X_Train_DF, Y_Train), (X_Test_DF, Y_Test)).

End split_frame.

(** What a group must look like for the loop of [prevTxFeatures] to run:
    ten columns or more, all as long as the frame, the amounts in
    column 2. *)
Definition entity_frame (amounts : list Q) (data : pd.DataFrame) : Prop :=
  10 ≤ length (pd.columns data) ∧
  Forall (λ c, length (pd.values c) = pd.len data) (pd.columns data) ∧
  ∃ c2, pd.columns data !! 2 = Some c2 ∧ pd.values c2 = pd.Num <$> amounts.


(** A count as a rational. *)
Definition QN (n : nat) : Q := inject_Z (Z.of_nat n).

(** ** Sample data *)

Definition sample_frame : pd.DataFrame :=
  pd.mkDataFrame [0; 1; 2]
    [ pd.mkSeries "txType" pd.object [pd.Str "PAYMENT"; pd.Str "DEBIT"; pd.Str "TRANSFER"];
      pd.mkSeries "txAmount" pd.float64 [pd.Num 10; pd.Num 20; pd.Num 60];
      pd.mkSeries "previousTxType" pd.object [pd.Str "First"; pd.Str "PAYMENT"; pd.Str "DEBIT"];
      pd.mkSeries "min7PrevTxAmount" pd.float64 [pd.Num 10; pd.Num 10; pd.Num 10] ].

(** The sample frame with its amounts held as strings: the same column
    names, another dtype for [txAmount]. *)
Definition retyped_frame : pd.DataFrame :=
  pd.mkDataFrame [0; 1; 2]
    [ pd.mkSeries "txType" pd.object [pd.Str "PAYMENT"; pd.Str "DEBIT"; pd.Str "TRANSFER"];
      pd.mkSeries "txAmount" pd.object [pd.Str "10"; pd.Str "20"; pd.Str "60"];
      pd.mkSeries "previousTxType" pd.object [pd.Str "First"; pd.Str "PAYMENT"; pd.Str "DEBIT"];
      pd.mkSeries "min7PrevTxAmount" pd.float64 [pd.Num 10; pd.Num 10; pd.Num 10] ].

(** A pipeline fitted on one record set and asked to transform another
    scales with the first one's statistics but encodes with the second
    one's categories: the test frame below, holding two transaction types
    where the training frame held three, comes out narrower. *)
Definition narrow_frame : pd.DataFrame :=
  pd.mkDataFrame [0; 1; 2]
    [ pd.mkSeries "txType" pd.object [pd.Str "PAYMENT"; pd.Str "DEBIT"; pd.Str "DEBIT"];
      pd.mkSeries "txAmount" pd.float64 [pd.Num 10; pd.Num 20; pd.Num 60];
      pd.mkSeries "previousTxType" pd.object [pd.Str "First"; pd.Str "PAYMENT"; pd.Str "DEBIT"];
      pd.mkSeries "min7PrevTxAmount" pd.float64 [pd.Num 10; pd.Num 10; pd.Num 10] ].

(** The transactions of one client, as [groupby('fromId')] hands them to
    [prevTxFeatures]: amounts 10, 20, 60 and the three feature columns
    still at their initial 0. *)
Definition client_group : pd.DataFrame :=
  pd.mkDataFrame [0; 1; 2]
    [ pd.mkSeries "fromId" pd.int64 [pd.Num 7; pd.Num 7; pd.Num 7];
      pd.mkSeries "txType" pd.object [pd.Str "PAYMENT"; pd.Str "DEBIT"; pd.Str "TRANSFER"];
      pd.mkSeries "txAmount" pd.float64 [pd.Num 10; pd.Num 20; pd.Num 60];
      pd.mkSeries "txOrder" pd.int64 [pd.Num 1; pd.Num 2; pd.Num 3];
      pd.mkSeries "fraudulentTx" pd.bool_ [pd.Num 0; pd.Num 0; pd.Num 1];
      pd.mkSeries "toId" pd.int64 [pd.Num 3; pd.Num 4; pd.Num 4];
      pd.mkSeries "previousTxType" pd.object [pd.NaN; pd.Str "PAYMENT"; pd.Str "DEBIT"];
      pd.mkSeries "min7PrevTxAmount" pd.float64 [pd.Num 0; pd.Num 0; pd.Num 0];
      pd.mkSeries "mean7PrevTxAmount" pd.float64 [pd.Num 0; pd.Num 0; pd.Num 0];
      pd.mkSeries "max7PrevTxAmount" pd.float64 [pd.Num 0; pd.Num 0; pd.Num 0];
      pd.mkSeries "data_chunk" pd.int64 [pd.Num 1; pd.Num 1; pd.Num 1] ].

(** A small generator to run the constructor on: the state is a counter,
    a permutation is a rotation by it. *)
Definition rotating_permutation (r n : nat) : list nat * nat :=
  (rotate r (seq 0 n), S r).

Definition transactions : pd.DataFrame :=
  pd.mkDataFrame [0; 1; 2; 3]
    [ pd.mkSeries "fromId" pd.int64 [pd.Num 7; pd.Num 7; pd.Num 7; pd.Num 9];
      pd.mkSeries "txType" pd.object
        [pd.Str "PAYMENT"; pd.Str "DEBIT"; pd.Str "TRANSFER"; pd.Str "PAYMENT"];
      pd.mkSeries "txAmount" pd.float64 [pd.Num 10; pd.Num 20; pd.Num 60; pd.Num 5];
      pd.mkSeries "txOrder" pd.int64 [pd.Num 1; pd.Num 2; pd.Num 3; pd.Num 4];
      pd.mkSeries "fraudulentTx" pd.bool_ [pd.Num 0; pd.Num 0; pd.Num 1; pd.Num 0];
      pd.mkSeries "toId" pd.int64 [pd.Num 3; pd.Num 4; pd.Num 4; pd.Num 3];
      pd.mkSeries "previousTxType" pd.object
        [pd.NaN; pd.Str "PAYMENT"; pd.Str "DEBIT"; pd.NaN];
      pd.mkSeries "min7PrevTxAmount" pd.float64 [pd.Num 10; pd.Num 10; pd.Num 10; pd.Num 5];
      pd.mkSeries "mean7PrevTxAmount" pd.float64 [pd.Num 10; pd.Num 15; pd.Num 30; pd.Num 5];
      pd.mkSeries "max7PrevTxAmount" pd.float64 [pd.Num 10; pd.Num 20; pd.Num 60; pd.Num 5];
      pd.mkSeries "data_chunk" pd.int64 [pd.Num 1; pd.Num 1; pd.Num 1; pd.Num 0] ].

Definition session : py.state nat :=
  py.mkState {[ 1%positive := transactions ]} 0.

Definition later_session : py.state nat :=
  py.mkState {[ 1%positive := transactions; 2%positive := sample_frame ]} 5.

(** Newton's iteration for the square root, five steps from 1: a stand-in
    for the floating-point square root when the pipeline is run. *)
Definition newton_sqrt (x : Q) : Q :=
  Nat.iter 5 (λ y, Qred ((y + x / y) / 2)) 1%Q.

(** ** Further vocabulary *)

(** The number of columns [label_binarize] gives a column of labels: one
    for at most two distinct values, one per value from three on. *)
Definition block_width (col : list string) : nat :=
  match length (np.unique col) with
  | 0 => 0
  | 1 | 2 => 1
  | k => k
  end.

(** The sum of a row of an encoded matrix. *)
Definition row_total (r : list Z) : Z := foldr Z.add 0%Z r.

(** A pipeline set up as the notebook's: the first selector quantitative,
    the second qualitative. *)
Definition configured (p : data_prep_pipeline.t) : Prop :=
  AttributeSelector.quantitative (data_prep_pipeline.quant_selector p) = true ∧
  AttributeSelector.quantitative (data_prep_pipeline.qual_selector p) = false.

(** The columns of a frame a selector counts as qualitative. *)
Definition qualitative_columns (X : pd.DataFrame) : list pd.Series :=
  filter (λ c, pd.dt c ∈ [pd.object; pd.category]) (pd.columns X).

Definition quantitative_columns (X : pd.DataFrame) : list pd.Series :=
  filter (λ c, pd.dt c ∉ [pd.object; pd.category]) (pd.columns X).

(** The columns the [Datasets] constructor removes from the features. *)
Definition identifier_columns : list string :=
  ["data_chunk"; "txOrder"; "fromId"; "toId"]%string.


(** ** f1_score

    scikit-learn's F1 for a binary target: from the precision and the
    recall, with a zero denominator replaced by 1. *)
Module fscore.

Definition f1_score (y_true y_pred : list bool) : option Q :=
  precision ← metrics.precision_score y_true y_pred;
  recall ← metrics.recall_score y_true y_pred;
  let denom := (precision + recall)%Q in
  let denom := if Qeq_bool denom 0 then 1%Q else denom in
  Some (2 * precision * recall / denom)%Q.

End fscore.

(** ** The names of the prepared features

    The cell that lists, for the coefficients of the classifier, the
    quantitative column names followed by one name per qualitative column
    and value. *)
Module feature_names.

Definition as_str (v : pd.cell) : option string :=
  match v with pd.Str s => Some s | _ => None end.

(** [s.unique()]: the distinct values in order of first appearance. *)
Fixpoint first_occurrences (seen l : list string) : list string :=
  match l with
  | [] => []
  | x :: l' =>
      if decide (x ∈ seen) then first_occurrences seen l'
      else x :: first_occurrences (x :: seen) l'
  end.

Definition series_unique (l : list string) : list string :=
  first_occurrences [] l.

(** [[col + '_' + x for x in list(data[col].unique())]]; a value that is
    not a string cannot be appended to a string. *)
Definition column_labels (col : string) (data : pd.DataFrame) : option (list string) :=
  s ← pdops.getitem col data;
  xs ← mapM as_str (pd.values s.2);
  Some ((λ x, col +:+ "_" +:+ x) <$> series_unique xs).

Fixpoint extend (all_features qualitative_features : list string) (data : pd.DataFrame)
  : option (list string) :=
  match qualitative_features with
  | [] => Some all_features
  | col :: rest =>
      labels ← column_labels col data;
      extend (all_features ++ labels) rest data
  end.

(** The cell: the two selectors' [attribute_names] (absent before the
    first [transform]) and the frame whose values name the columns. *)
Definition all_features (pipeline : data_prep_pipeline.t) (data : pd.DataFrame)
  : option (list string) :=
  quantitative_features ←
    AttributeSelector.attribute_names (data_prep_pipeline.quant_selector pipeline);
  qualitative_features ←
    AttributeSelector.attribute_names (data_prep_pipeline.qual_selector pipeline);
  extend quantitative_features qualitative_features data.

End feature_names.

(** A qualitative column [c] of the prepared frame and the frame [data]
    the names are read from agree: [data] has a column of that name, both
    hold strings only and the same ones, three or more of them. *)
Definition values_agree (data : pd.DataFrame) (c : pd.Series) : Prop :=
  ∃ s xs ys,
    pdops.getitem (pd.name c) data = Some s ∧
    mapM feature_names.as_str (pd.values s.2) = Some xs ∧
    mapM feature_names.as_str (pd.values c) = Some ys ∧
    (∀ v, v ∈ xs ↔ v ∈ ys) ∧
    3 ≤ length (np.unique ys).

(** * Properties *)

(** ** MyLabelBinarizer *)
Section MyLabelBinarizer_facts.
Import MyLabelBinarizer.

Lemma indicator_bits y c : Forall is_bit (indicator y c).
Proof.
  unfold indicator. apply Forall_fmap, Forall_forall. intros v _. simpl.
  destruct (String.eqb v c); [right | left]; reflexivity.
Qed.

Lemma indicator_length y c : length (indicator y c) = length y.
Proof. unfold indicator. apply length_fmap. Qed.

Lemma indicators_bits y classes : Forall (Forall is_bit) (indicator y <$> classes).
Proof. apply Forall_fmap, Forall_forall. intros c _. apply indicator_bits. Qed.

Lemma label_binarize_bits y classes block :
  label_binarize y classes = Some block → Forall (Forall is_bit) block.
Proof.
  unfold label_binarize. destruct y as [|v y]; [discriminate|].
  set (yy := v :: y).
  assert (Hz : Forall (Forall is_bit) [replicate (length yy) 0%Z]).
  { constructor; [|constructor]. apply Forall_replicate. by left. }
  pose proof (indicators_bits yy classes) as Hi.
  destruct (type_of_target yy); [|by intros [= <-]].
  destruct (length classes) as [|[|[|k]]]; intros [= <-]; try done.
  by apply Forall_drop.
Qed.

Lemma label_binarize_rows y classes block :
  label_binarize y classes = Some block → Forall (λ col, length col = length y) block.
Proof.
  unfold label_binarize. destruct y as [|v y]; [discriminate|].
  set (yy := v :: y).
  assert (Hi : Forall (λ col, length col = length yy) (indicator yy <$> classes)).
  { apply Forall_fmap, Forall_forall. intros c _. apply indicator_length. }
  destruct (type_of_target yy); [|by intros [= <-]].
  destruct (length classes) as [|[|[|k]]]; intros [= <-]; try done.
  - constructor; [|constructor]. subst yy. simpl. by rewrite length_replicate.
  - by apply Forall_drop.
Qed.

Lemma hstack_Some {A} (blocks : list (np.ndarray A)) out :
  np.hstack blocks = Some out → out = concat blocks.
Proof. destruct blocks; [discriminate|]. by intros [= <-]. Qed.

End MyLabelBinarizer_facts.

(** C10: whenever [MyLabelBinarizer.transform] returns a matrix, each of
    its entries is 0 or 1. *)
Theorem transform_output_is_binary (x : np.ndarray string) (out : np.ndarray Z) :
  MyLabelBinarizer.transform MyLabelBinarizer.mk x = Some out →
  Forall (Forall is_bit) out.
Proof.
  unfold MyLabelBinarizer.transform. intros H.
  apply bind_Some in H as (blocks & Hblocks & Hstack).
  apply hstack_Some in Hstack as ->.
  apply mapM_Some in Hblocks.
  apply Forall_concat.
  induction Hblocks as [|col block x blocks Hb _ IH]; constructor; [|exact IH].
  by eapply label_binarize_bits.
Qed.

Lemma transform_output_is_binary_witness :
  MyLabelBinarizer.transform MyLabelBinarizer.mk
    [["PAYMENT"; "DEBIT"; "TRANSFER"]; ["First"; "First"; "DEBIT"]]%string
  = Some [[0;1;0]; [1;0;0]; [0;0;1]; [1;1;0]]%Z
  ∧ Forall (Forall is_bit) [[0;1;0]; [1;0;0]; [0;0;1]; [1;1;0]]%Z.
Proof.
  split; [vm_compute; reflexivity|].
  apply (transform_output_is_binary
           [["PAYMENT"; "DEBIT"; "TRANSFER"]; ["First"; "First"; "DEBIT"]]%string).
  vm_compute; reflexivity.
Defined.

(** ** np.unique *)
Section unique_facts.

Lemma ascii_compare_lt_trans a b c :
  Ascii.compare a b = Lt → Ascii.compare b c = Lt → Ascii.compare a c = Lt.
Proof.
  unfold Ascii.compare. rewrite !N.compare_lt_iff. apply N.lt_trans.
Qed.

Lemma string_compare_lt_trans a : ∀ b c,
  String.compare a b = Lt → String.compare b c = Lt → String.compare a c = Lt.
Proof.
  induction a as [|x a IH]; intros [|y b] [|z c]; simpl; try done.
  destruct (Ascii.compare x y) eqn:Hxy; try done;
    destruct (Ascii.compare y z) eqn:Hyz; try done.
  - apply Ascii.compare_eq_iff in Hxy as ->, Hyz as ->.
    rewrite (proj2 (N.compare_eq_iff _ _) eq_refl : Ascii.compare z z = Eq).
    apply IH.
  - apply Ascii.compare_eq_iff in Hxy as ->. by rewrite Hyz.
  - apply Ascii.compare_eq_iff in Hyz as <-. by rewrite Hxy.
  - by rewrite (ascii_compare_lt_trans _ _ _ Hxy Hyz).
Qed.

Lemma str_before_trans a b c : str_before a b → str_before b c → str_before a c.
Proof.
  unfold str_before, np.str_lt. intros Hab Hbc.
  destruct (String.compare a b) eqn:E1; try done.
  destruct (String.compare b c) eqn:E2; try done.
  by rewrite (string_compare_lt_trans _ _ _ E1 E2).
Qed.

Lemma str_before_irrefl a : ¬ str_before a a.
Proof.
  unfold str_before, np.str_lt. intros H.
  pose proof (String.compare_antisym a a) as Ha.
  destruct (String.compare a a); simpl in Ha; done.
Qed.

(** Two different strings are ordered one way or the other. *)
Lemma str_before_total a b :
  String.eqb a b = false → np.str_lt a b = false → str_before b a.
Proof.
  unfold str_before, np.str_lt. intros Hne Hlt.
  rewrite String.compare_antisym.
  destruct (String.compare a b) eqn:E; simpl; try done.
  apply String.compare_eq_iff in E. apply String.eqb_neq in Hne. done.
Qed.

Lemma elem_of_insert_sorted a l x :
  x ∈ np.insert_sorted a l ↔ x = a ∨ x ∈ l.
Proof.
  induction l as [|b l IH]; simpl.
  - rewrite list_elem_of_singleton, elem_of_nil. tauto.
  - destruct (String.eqb a b) eqn:Heq.
    + apply String.eqb_eq in Heq as ->. rewrite elem_of_cons. tauto.
    + destruct (np.str_lt a b).
      * rewrite (elem_of_cons (b :: l)). tauto.
      * rewrite !elem_of_cons, IH. tauto.
Qed.

Lemma insert_sorted_sorted a l :
  StronglySorted str_before l → StronglySorted str_before (np.insert_sorted a l).
Proof.
  induction 1 as [|b l Hl IH Hb]; simpl.
  - repeat constructor.
  - destruct (String.eqb a b) eqn:Heq; [by constructor|].
    destruct (np.str_lt a b) eqn:Hlt.
    + constructor; [by constructor|]. constructor; [done|].
      eapply Forall_impl; [exact Hb|]. intros c Hc.
      by eapply str_before_trans.
    + constructor; [done|]. apply Forall_forall. intros x Hx.
      apply elem_of_insert_sorted in Hx as [->|Hx].
      * by apply str_before_total.
      * by eapply Forall_forall in Hb.
Qed.

Lemma unique_sorted y : StronglySorted str_before (np.unique y).
Proof.
  induction y as [|a y IH]; simpl; [constructor|]. by apply insert_sorted_sorted.
Qed.

Lemma elem_of_unique y x : x ∈ np.unique y ↔ x ∈ y.
Proof.
  induction y as [|a y IH]; simpl; [done|].
  rewrite elem_of_insert_sorted, IH, elem_of_cons. tauto.
Qed.

Lemma unique_NoDup y : NoDup (np.unique y).
Proof.
  pose proof (unique_sorted y) as H.
  induction H as [|b l _ IH Hb]; constructor; [|done].
  intros Hin. eapply Forall_forall in Hb; [|exact Hin].
  by apply str_before_irrefl in Hb.
Qed.

End unique_facts.

(** ** One-hot blocks *)
Section one_hot.
Import MyLabelBinarizer.

(** A column with three or more distinct values gets one indicator
    column per distinct value, in sorted order. *)
Lemma label_binarize_multiclass (col : list string) :
  3 ≤ length (np.unique col) →
  label_binarize col (np.unique col) = Some (indicator col <$> np.unique col).
Proof.
  intros H. unfold label_binarize.
  destruct col as [|v col]; [simpl in H; lia|].
  unfold type_of_target. destruct (decide _); [lia|done].
Qed.

Lemma transform_multiclass (x : np.ndarray string) :
  x ≠ [] →
  Forall (λ col, 3 ≤ length (np.unique col)) x →
  transform mk x = Some (concat ((λ col, indicator col <$> np.unique col) <$> x)).
Proof.
  intros Hx Hall. unfold transform.
  assert (Hm : mapM (λ col, label_binarize col (np.unique col)) x
               = Some ((λ col, indicator col <$> np.unique col) <$> x)).
  { apply mapM_Some. clear Hx. induction Hall as [|col x Hc _ IH]; simpl.
    - constructor.
    - constructor; [by apply label_binarize_multiclass|done]. }
  rewrite Hm. simpl. destruct x; done.
Qed.

Lemma transform_multiclass_count (x : np.ndarray string) out :
  Forall (λ col, 3 ≤ length (np.unique col)) x →
  transform mk x = Some out →
  np.shape1 out = sum_list ((λ col, length (np.unique col)) <$> x).
Proof.
  intros Hall Hout.
  destruct (decide (x = [])) as [->|Hx]; [done|].
  rewrite (transform_multiclass x Hx Hall) in Hout. injection Hout as <-.
  unfold np.shape1. clear. induction x as [|col x IH]; [done|].
  rewrite !fmap_cons. cbn [concat sum_list sum_list_with].
  by rewrite length_app, length_fmap, IH.
Qed.

End one_hot.

(** The scenario of C1: values "A", "B", "C" give three indicator
    columns in that order, and a row holding "A" reads [1,0,0]. *)
Example transform_three_values :
  MyLabelBinarizer.transform MyLabelBinarizer.mk [["B"; "A"; "C"; "A"]%string]
    = Some [[0;1;0;1]; [1;0;0;0]; [0;0;1;0]]%Z
  ∧ np.row 1 [[0;1;0;1]; [1;0;0;0]; [0;0;1;0]]%Z = Some [1;0;0]%Z.
Proof. split; vm_compute; reflexivity. Qed.

(** C1: on a column with exactly two distinct values the encoder returns
    one column, not two; the columns of the output are then fewer than
    the distinct values of the input (here 1 against 2, and 4 against 5
    for a two-valued column next to a three-valued one). *)
Theorem transform_two_valued_column :
  MyLabelBinarizer.transform MyLabelBinarizer.mk [["A"; "B"; "A"]%string]
    = Some [[0;1;0]%Z]
  ∧ np.unique ["A"; "B"; "A"]%string = ["A"; "B"]%string
  ∧ (np.shape1 <$> MyLabelBinarizer.transform MyLabelBinarizer.mk
        [["A"; "B"; "A"]; ["X"; "Y"; "Z"]]%string) = Some 4
  ∧ sum_list ((λ col, length (np.unique col)) <$>
        [["A"; "B"; "A"]; ["X"; "Y"; "Z"]]%string) = 5.
Proof. repeat split; vm_compute; reflexivity. Qed.

(** A column holding a single value gives one column too, but of zeros:
    it marks no row. *)
Example transform_single_valued_column :
  MyLabelBinarizer.transform MyLabelBinarizer.mk [["A"; "A"]%string]
    = Some [[0;0]%Z].
Proof. vm_compute; reflexivity. Qed.

(** ** AttributeSelector *)
Section AttributeSelector_facts.
Import pd AttributeSelector.

Lemma transform_names self X :
  (if quantitative self
   then column_names (select_dtypes_exclude [object; category] X)
   else column_names (select_dtypes_include [object; category] X))
  = matching_names (quantitative self) X.
Proof. done. Qed.

Lemma matching_names_schema q X Y :
  schema X = schema Y → matching_names q X = matching_names q Y.
Proof.
  unfold schema, matching_names. generalize (columns X) (columns Y).
  induction l as [|c l IH]; intros [|d l']; simpl; try done.
  intros [= Hn Hd Hl]. specialize (IH _ Hl).
  destruct q; rewrite !filter_cons, Hd;
    (destruct (decide _); simpl; [rewrite Hn; f_equal|]; exact IH).
Qed.

Lemma filter_none {A} (P : A → Prop) `{∀ x, Decision (P x)} (l : list A) :
  Forall (λ x, ¬ P x) l → filter P l = [].
Proof.
  induction 1 as [|x l Hx _ IH]; [done|]. by rewrite filter_cons_False.
Qed.

(** With distinct column names a name picks out its own column only. *)
Lemma filter_name_unique (cols : list Series) c :
  NoDup (name <$> cols) → c ∈ cols →
  filter (λ c', name c' = name c) cols = [c].
Proof.
  induction cols as [|d cols IH]; simpl; intros Hnd Hin.
  - by apply elem_of_nil in Hin.
  - apply NoDup_cons in Hnd as [Hd Hnd]. rewrite filter_cons.
    apply elem_of_cons in Hin as [->|Hin].
    + rewrite decide_True by done. f_equal.
      apply filter_none, Forall_forall. intros c' Hc' Heq. simpl in Heq.
      apply Hd. rewrite <- Heq. by apply list_elem_of_fmap_2.
    + rewrite decide_False; [by apply IH|].
      intros Heq. apply Hd. rewrite Heq. by apply list_elem_of_fmap_2.
Qed.

Lemma getitem_list_sublist X (sel : list Series) :
  NoDup (column_names X) → sel ⊆ columns X →
  getitem_list X (name <$> sel) = Some (mkDataFrame (index X) sel).
Proof.
  intros Hnd Hsub. unfold getitem_list.
  assert (Hm : mapM (λ nm, match filter (λ c, name c = nm) (columns X) with
                           | [] => None | cs => Some cs end) (name <$> sel)
               = Some ((λ c, [c]) <$> sel)).
  { apply mapM_Some. apply Forall2_fmap, Forall_Forall2_diag, Forall_forall.
    intros c Hc. by rewrite (filter_name_unique (columns X) c Hnd (Hsub c Hc)). }
  rewrite Hm. simpl. do 2 f_equal.
  clear. induction sel as [|c sel IH]; [done|].
  rewrite fmap_cons. cbn [concat app]. by rewrite IH.
Qed.

Lemma transform_eq self X :
  NoDup (column_names X) →
  transform self X =
    Some (mk (quantitative self) (Some (matching_names (quantitative self) X)),
          if quantitative self
          then values <$> filter (λ c, dt c ∉ [object; category]) (columns X)
          else values <$> filter (λ c, dt c ∈ [object; category]) (columns X)).
Proof.
  intros Hnd. unfold transform. rewrite transform_names. unfold matching_names.
  destruct (quantitative self);
    (rewrite getitem_list_sublist; [done|done|]);
    intros c Hc; by apply list_elem_of_filter in Hc as [_ Hc].
Qed.

Lemma NoDup_fmap_elem_inj {A B} (f : A → B) (l : list A) x y :
  NoDup (f <$> l) → x ∈ l → y ∈ l → f x = f y → x = y.
Proof.
  induction l as [|a l IH]; simpl; intros Hnd Hx Hy Hf.
  - by apply elem_of_nil in Hx.
  - apply NoDup_cons in Hnd as [Ha Hnd].
    apply elem_of_cons in Hx as [->|Hx]; apply elem_of_cons in Hy as [->|Hy];
      try done.
    + exfalso. apply Ha. rewrite Hf. by apply list_elem_of_fmap_2.
    + exfalso. apply Ha. rewrite <- Hf. by apply list_elem_of_fmap_2.
    + by apply IH.
Qed.

End AttributeSelector_facts.

(** C9: on a record set whose column names are distinct, the quantitative
    and the qualitative selector succeed, the two lists of names they
    record share no name, every column name is in one of them, and the
    two arrays they return hold every column of the record set exactly
    once. *)
Theorem selectors_partition_columns (X : pd.DataFrame) :
  NoDup (pd.column_names X) →
  ∃ quant qual,
    AttributeSelector.transform (AttributeSelector.__init__ true) X
      = Some (AttributeSelector.mk true (Some (matching_names true X)), quant) ∧
    AttributeSelector.transform (AttributeSelector.__init__ false) X
      = Some (AttributeSelector.mk false (Some (matching_names false X)), qual) ∧
    (∀ nm, nm ∈ matching_names true X → nm ∉ matching_names false X) ∧
    (∀ nm, nm ∈ pd.column_names X ↔
           nm ∈ matching_names true X ∨ nm ∈ matching_names false X) ∧
    matching_names true X ++ matching_names false X ≡ₚ pd.column_names X ∧
    quant ++ qual ≡ₚ pd.to_values X.
Proof.
  intros Hnd. do 2 eexists.
  split; [by apply transform_eq|]. split; [by apply transform_eq|].
  cbn [matching_names]. unfold pd.column_names, pd.to_values.
  assert (Hperm :
    filter (λ c, pd.dt c ∉ [pd.object; pd.category]) (pd.columns X) ++
    filter (λ c, pd.dt c ∈ [pd.object; pd.category]) (pd.columns X)
    ≡ₚ pd.columns X).
  { rewrite Permutation_app_comm.
    apply (filter_app_complement (λ c, pd.dt c ∈ [pd.object; pd.category])). }
  split; [|split; [|split]].
  - intros nm Hq Hc.
    apply list_elem_of_fmap in Hq as (c1 & -> & H1).
    apply list_elem_of_fmap in Hc as (c2 & Heq & H2).
    apply list_elem_of_filter in H1 as [Hn1 H1].
    apply list_elem_of_filter in H2 as [Hp2 H2].
    assert (c1 = c2) as -> by (by eapply (NoDup_fmap_elem_inj pd.name)).
    done.
  - intros nm. rewrite <- elem_of_app, <- fmap_app.
    split; intros Hin; eapply elem_of_Permutation_proper; try exact Hin;
      [|symmetry]; by apply fmap_Permutation.
  - rewrite <- fmap_app. by apply fmap_Permutation.
  - cbn [AttributeSelector.quantitative AttributeSelector.__init__].
    rewrite <- fmap_app. by apply fmap_Permutation.
Qed.

Lemma selectors_partition_columns_witness :
  ∃ quant qual,
    AttributeSelector.transform (AttributeSelector.__init__ true) sample_frame
      = Some (AttributeSelector.mk true (Some (matching_names true sample_frame)), quant) ∧
    AttributeSelector.transform (AttributeSelector.__init__ false) sample_frame
      = Some (AttributeSelector.mk false (Some (matching_names false sample_frame)), qual) ∧
    (∀ nm, nm ∈ matching_names true sample_frame → nm ∉ matching_names false sample_frame) ∧
    (∀ nm, nm ∈ pd.column_names sample_frame ↔
           nm ∈ matching_names true sample_frame ∨ nm ∈ matching_names false sample_frame) ∧
    matching_names true sample_frame ++ matching_names false sample_frame
      ≡ₚ pd.column_names sample_frame ∧
    quant ++ qual ≡ₚ pd.to_values sample_frame.
Proof.
  apply (selectors_partition_columns sample_frame).
  apply (bool_decide_unpack (NoDup (pd.column_names sample_frame))).
  vm_compute. exact I.
Defined.

(** C2, as stated, fails: after [fit] no column list is recorded, and a
    later [transform] of a record set with the same column names returns
    the columns matching in that record set, not those that matched in
    the record set given to [fit]. *)
Lemma fit_records_no_columns :
  let fitted := AttributeSelector.fit (AttributeSelector.__init__ true) sample_frame in
  AttributeSelector.attribute_names fitted = None ∧
  pd.column_names retyped_frame = pd.column_names sample_frame ∧
  ∃ self' out,
    AttributeSelector.transform fitted retyped_frame = Some (self', out) ∧
    AttributeSelector.attribute_names self' = Some ["min7PrevTxAmount"%string] ∧
    matching_names true sample_frame = ["txAmount"; "min7PrevTxAmount"]%string ∧
    Some out ≠ (pd.to_values <$>
                  pd.getitem_list retyped_frame (matching_names true sample_frame)).
Proof.
  cbv zeta. split; [reflexivity|]. split; [reflexivity|].
  do 2 eexists. split; [vm_compute; reflexivity|].
  split; [reflexivity|]. split; [reflexivity|].
  vm_compute. discriminate.
Qed.

(** C2, amended: [fit] leaves the selector as it is; [transform], on a
    record set with distinct column names, computes the names matching
    the requested type from the dtypes of the record set it is given,
    whatever the selector held before, records them in [attribute_names]
    and returns the values of exactly those columns; the names agree with
    those of the record set given to [fit] when the two record sets have
    the same column names and dtypes. *)
Theorem transform_recomputes_columns
    (self : AttributeSelector.t) (X_fit X : pd.DataFrame) :
  NoDup (pd.column_names X) →
  let names := matching_names (AttributeSelector.quantitative self) X in
  AttributeSelector.fit self X_fit = self ∧
  (∃ sel,
     pd.getitem_list X names = Some sel ∧
     AttributeSelector.transform (AttributeSelector.fit self X_fit) X
       = Some (AttributeSelector.mk (AttributeSelector.quantitative self) (Some names),
               pd.to_values sel)) ∧
  (schema X = schema X_fit →
   names = matching_names (AttributeSelector.quantitative self) X_fit).
Proof.
  intros Hnd names. split; [reflexivity|]. split.
  - unfold AttributeSelector.fit, AttributeSelector.transform.
    rewrite transform_names. fold names.
    destruct (pd.getitem_list X names) as [sel|] eqn:Hsel.
    + by exists sel.
    + exfalso. pose proof (transform_eq self X Hnd) as Ht.
      unfold AttributeSelector.transform in Ht.
      rewrite transform_names in Ht. fold names in Ht.
      by rewrite Hsel in Ht.
  - apply matching_names_schema.
Qed.

Lemma transform_recomputes_columns_witness :
  let self := AttributeSelector.mk false (Some ["stale"%string]) in
  let names := matching_names false retyped_frame in
  AttributeSelector.fit self sample_frame = self ∧
  (∃ sel,
     pd.getitem_list retyped_frame names = Some sel ∧
     AttributeSelector.transform (AttributeSelector.fit self sample_frame) retyped_frame
       = Some (AttributeSelector.mk false (Some names), pd.to_values sel)) ∧
  (schema retyped_frame = schema sample_frame →
   names = matching_names false sample_frame).
Proof.
  apply (transform_recomputes_columns
           (AttributeSelector.mk false (Some ["stale"%string]))
           sample_frame retyped_frame).
  apply (bool_decide_unpack (NoDup (pd.column_names retyped_frame))).
  vm_compute. exact I.
Defined.

(** ** Frames: rows and records *)
Section frame_facts.
Import pd pdops.

Lemma drop_columns_index labels X Y :
  drop_columns labels X = Some Y → index Y = index X.
Proof. unfold drop_columns. case_decide; [|done]. by intros [= <-]. Qed.

Lemma fillna_column_index attr value X Y :
  fillna_column attr value X = Some Y → index Y = index X.
Proof. unfold fillna_column. case_decide; [|done]. by intros [= <-]. Qed.

Lemma take_rows_Some ind X T :
  take_rows ind X = Some T →
  Forall2 (λ i lbl, index X !! i = Some lbl) ind (index T) ∧
  Forall2 (λ c c', Forall2 (λ i v, values c !! i = Some v) ind (values c'))
          (columns X) (columns T).
Proof.
  unfold take_rows. intros H.
  destruct (mapM (λ i, index X !! i) ind) as [idx|] eqn:Hidx; simpl in H; [|done].
  destruct (mapM _ (columns X)) as [cols|] eqn:Hcols; simpl in H; [|done].
  injection H as <-. simpl. split; [by apply mapM_Some|].
  apply mapM_Some in Hcols. eapply Forall2_impl; [exact Hcols|].
  intros c c' Hc. simpl in Hc.
  destruct (mapM (λ i, values c !! i) ind) as [vs|] eqn:Hvs; simpl in Hc; [|done].
  injection Hc as <-. simpl. by apply mapM_Some.
Qed.

Lemma take_rows_len ind X T : take_rows ind X = Some T → len T = length ind.
Proof.
  intros H. apply take_rows_Some in H as [H _]. unfold len.
  symmetry. by eapply Forall2_length.
Qed.

Lemma mapM_agree {A B C} (f : A → option C) (g : B → option C) l1 l2 :
  Forall2 (λ a b, f a = g b ∧ is_Some (g b)) l1 l2 →
  mapM f l1 = mapM g l2 ∧ is_Some (mapM g l2).
Proof.
  induction 1 as [|a b l1 l2 [Hab [c Hc]] _ [IH1 [r IH2]]]; simpl; [eauto|].
  rewrite Hab, Hc, IH1, IH2. simpl. eauto.
Qed.

(** Row [k] of the rows taken at [ind] is row [ind[k]] of the frame. *)
Lemma take_rows_record_at ind X T k i :
  take_rows ind X = Some T → ind !! k = Some i →
  record_at T k = record_at X i ∧ is_Some (record_at X i).
Proof.
  intros H Hk. apply take_rows_Some in H as [Hidx Hcols].
  unfold record_at.
  destruct (Forall2_lookup_l _ _ _ _ _ Hidx Hk) as (lbl & -> & ->). simpl.
  assert (Hrow : np.row k (to_values T) = np.row i (to_values X)
                 ∧ is_Some (np.row i (to_values X))).
  { unfold np.row, to_values. apply mapM_agree.
    apply Forall2_fmap, Forall2_flip.
    eapply Forall2_impl; [exact Hcols|]. intros c c' Hc. simpl.
    destruct (Forall2_lookup_l _ _ _ _ _ Hc Hk) as (v & -> & ->). eauto. }
  destruct Hrow as [-> [r ->]]. by split.
Qed.

Lemma omap_reindex {A} (f g : nat → option A) (ind : list nat) (s : nat) :
  (∀ k i, ind !! k = Some i → f (s + k) = g i) →
  omap f (seq s (length ind)) = omap g ind.
Proof.
  revert s. induction ind as [|i ind IH]; intros s H; simpl; [done|].
  rewrite <- (H 0 i eq_refl), Nat.add_0_r.
  assert (IH' : omap f (seq (S s) (length ind)) = omap g ind).
  { apply IH. intros k j Hk. rewrite <- (H (S k) j Hk). f_equal. lia. }
  destruct (f s); [f_equal|]; exact IH'.
Qed.

Lemma records_take_rows ind X T :
  take_rows ind X = Some T → records T = omap (record_at X) ind.
Proof.
  intros H. unfold records. rewrite (take_rows_len _ _ _ H).
  apply omap_reindex. intros k i Hk. simpl.
  by destruct (take_rows_record_at _ _ _ _ _ H Hk) as [-> _].
Qed.

(** The two index lists together are the permutation they are cut from. *)
Lemma split_indices_app (n n_test : nat) (p : list nat) :
  length p = n →
  let '(ind_train, ind_test) := model_selection.split_indices (n - n_test) n_test p in
  ind_test ++ ind_train = p.
Proof.
  intros Hp. simpl. rewrite (take_ge (drop n_test p)).
  - apply take_drop.
  - rewrite length_drop. lia.
Qed.

Lemma validate_shuffle_split_Some n test_size n_train n_test :
  model_selection.validate_shuffle_split n test_size = Some (n_train, n_test) →
  n_train = n - n_test ∧ n_train ≠ 0.
Proof.
  unfold model_selection.validate_shuffle_split.
  destruct (_ && _); [|done]. case_decide; [done|]. by intros [= <- <-].
Qed.

End frame_facts.

(** ** Datasets *)
Section Datasets_facts.
Import pd pdops.
Context {RandomState : Type}.
Variable RandomState_seed : nat → RandomState.
Variable rng_permutation : RandomState → nat → list nat * RandomState.


Lemma init_split_frame data test_size (σ : py.state RandomState) :
  Datasets.__init__ RandomState_seed rng_permutation data test_size σ =
    X ← py.heap σ !! data;
    '(filled, (train, test), (X_Train_DF, Y_Train), (X_Test_DF, Y_Test)) ←
       split_frame RandomState_seed rng_permutation test_size X;
    let l := py.fresh_loc (py.heap σ) in
    Some (Datasets.mk data l train test X_Train_DF Y_Train X_Test_DF Y_Test,
          py.mkState (<[l := filled]> (py.heap σ)) (py.global_rng σ)).
Proof.
  unfold Datasets.__init__, split_frame.
  destruct (py.heap σ !! data) as [X|]; simpl; [|done].
  destruct (drop_columns _ X) as [dropped|]; simpl; [|done].
  rewrite lookup_insert_eq. simpl.
  destruct (fillna_column _ _ dropped) as [filled|]; simpl; [|done].
  rewrite lookup_insert_eq. unfold py.store. simpl. rewrite insert_insert_eq.
  unfold model_selection.train_test_split.
  destruct (model_selection.validate_shuffle_split _ _) as [[n_train n_test]|];
    simpl; [|done].
  unfold seeded_permutation.
  destruct (take_rows (take n_train _) filled) as [train|]; simpl; [|done].
  destruct (take_rows (take n_test _) filled) as [test|]; simpl; [|done].
  destruct (drop_columns _ train) as [X_Train_DF|]; simpl; [|done].
  destruct (getitem _ train) as [Y_Train|]; simpl; [|done].
  destruct (drop_columns _ test) as [X_Test_DF|]; simpl; [|done].
  destruct (getitem _ test) as [Y_Test|]; simpl; done.
Qed.

Lemma split_frame_Some test_size X filled train test XY_Train XY_Test :
  split_frame RandomState_seed rng_permutation test_size X
    = Some (filled, (train, test), XY_Train, XY_Test) →
  ∃ dropped n_train n_test,
    drop_columns ["data_chunk"; "txOrder"; "fromId"; "toId"]%string X = Some dropped ∧
    fillna_column "previousTxType" (Str "First") dropped = Some filled ∧
    model_selection.validate_shuffle_split (len filled) test_size = Some (n_train, n_test) ∧
    take_rows
      (take n_train
         (drop n_test (seeded_permutation RandomState_seed rng_permutation (len filled))))
      filled = Some train ∧
    take_rows
      (take n_test (seeded_permutation RandomState_seed rng_permutation (len filled)))
      filled = Some test ∧
    (X_Train ← drop_columns ["fraudulentTx"]%string train;
     Y_Train ← getitem "fraudulentTx" train; Some (X_Train, Y_Train)) = Some XY_Train ∧
    (X_Test ← drop_columns ["fraudulentTx"]%string test;
     Y_Test ← getitem "fraudulentTx" test; Some (X_Test, Y_Test)) = Some XY_Test.
Proof.
  unfold split_frame. intros H.
  destruct (drop_columns _ X) as [dropped|]; simpl in H; [|done].
  destruct (fillna_column _ _ dropped) as [filled'|] eqn:Hf; simpl in H; [|done].
  destruct (model_selection.validate_shuffle_split _ _) as [[n_train n_test]|] eqn:Hv;
    simpl in H; [|done].
  destruct (take_rows (take n_train _) filled') as [train'|] eqn:Htr; simpl in H; [|done].
  destruct (take_rows (take n_test _) filled') as [test'|] eqn:Hte; simpl in H; [|done].
  destruct (drop_columns _ train') as [X_Train|] eqn:H1; simpl in H; [|done].
  destruct (getitem _ train') as [Y_Train|] eqn:H2; simpl in H; [|done].
  destruct (drop_columns _ test') as [X_Test|] eqn:H3; simpl in H; [|done].
  destruct (getitem _ test') as [Y_Test|] eqn:H4; simpl in H; [|done].
  injection H as <- <- <- <- <-. exists dropped, n_train, n_test.
  rewrite H1, H2, H3, H4. done.
Qed.

Lemma init_Some data test_size (σ σ' : py.state RandomState) self :
  Datasets.__init__ RandomState_seed rng_permutation data test_size σ = Some (self, σ') →
  ∃ X filled,
    py.heap σ !! data = Some X ∧
    split_frame RandomState_seed rng_permutation test_size X
      = Some (filled, (Datasets.train_set self, Datasets.test_set self),
              (Datasets.X_Train_DF self, Datasets.Y_Train self),
              (Datasets.X_Test_DF self, Datasets.Y_Test self)) ∧
    Datasets.original_data self = data ∧
    Datasets.data self = py.fresh_loc (py.heap σ) ∧
    σ' = py.mkState (<[py.fresh_loc (py.heap σ) := filled]> (py.heap σ)) (py.global_rng σ).
Proof.
  rewrite init_split_frame. intros H.
  destruct (py.heap σ !! data) as [X|] eqn:HX; simpl in H; [|done].
  destruct (split_frame RandomState_seed rng_permutation test_size X)
    as [[[[filled [train test]] [X_Train Y_Train]] [X_Test Y_Test]]|] eqn:Hs;
    simpl in H; [|done].
  injection H as <- <-. by exists X, filled.
Qed.

(** The constructor writes to a location that was free before. *)
Lemma init_frame data test_size (σ σ' : py.state RandomState) self l :
  Datasets.__init__ RandomState_seed rng_permutation data test_size σ = Some (self, σ') →
  is_Some (py.heap σ !! l) →
  py.heap σ' !! l = py.heap σ !! l ∧ Datasets.data self ≠ l.
Proof.
  intros H Hl. apply init_Some in H as (X & filled & _ & _ & _ & Hd & ->).
  assert (Hne : py.fresh_loc (py.heap σ) ≠ l).
  { intros <-. apply elem_of_dom in Hl. exact (is_fresh _ Hl). }
  split; [|by rewrite Hd]. simpl. by rewrite lookup_insert_ne.
Qed.

End Datasets_facts.

(** C4: two runs of the constructor on the same record set and held-out
    fraction, from stores and generator states that may differ in
    everything but the record set, both raise or both return the same
    train and test sets, features and labels. *)
Theorem datasets_deterministic {RandomState : Type}
    (RandomState_seed : nat → RandomState)
    (rng_permutation : RandomState → nat → list nat * RandomState)
    (data : py.loc) (test_size : Q) (σ1 σ2 : py.state RandomState) :
  py.heap σ1 !! data = py.heap σ2 !! data →
  Datasets.partitions ∘ fst <$>
    Datasets.__init__ RandomState_seed rng_permutation data test_size σ1
  = Datasets.partitions ∘ fst <$>
    Datasets.__init__ RandomState_seed rng_permutation data test_size σ2.
Proof.
  intros Heq. rewrite !init_split_frame, Heq.
  destruct (py.heap σ2 !! data) as [X|]; simpl; [|done].
  by destruct (split_frame RandomState_seed rng_permutation test_size X)
    as [[[[filled [train test]] [X_Train Y_Train]] [X_Test Y_Test]]|].
Qed.

Lemma datasets_deterministic_witness :
  Datasets.partitions ∘ fst <$>
    Datasets.__init__ id rotating_permutation 1%positive (1 # 4) session
  = Datasets.partitions ∘ fst <$>
    Datasets.__init__ id rotating_permutation 1%positive (1 # 4) later_session.
Proof.
  apply (datasets_deterministic id rotating_permutation 1%positive (1 # 4)
           session later_session).
  vm_compute. reflexivity.
Defined.

(** C8: after the constructor has run, [original_data] is the reference
    that was passed in, the record set behind it (and every other record
    set of the store) is what it was, and the frame with the identifier
    columns dropped and the missing [previousTxType] filled is a different
    object. *)
Theorem datasets_input_unchanged {RandomState : Type}
    (RandomState_seed : nat → RandomState)
    (rng_permutation : RandomState → nat → list nat * RandomState)
    (data : py.loc) (test_size : Q) (σ σ' : py.state RandomState) (self : Datasets.t) :
  Datasets.__init__ RandomState_seed rng_permutation data test_size σ = Some (self, σ') →
  Datasets.original_data self = data ∧
  py.heap σ' !! data = py.heap σ !! data ∧
  (∀ l, is_Some (py.heap σ !! l) → py.heap σ' !! l = py.heap σ !! l) ∧
  Datasets.data self ≠ data ∧
  ∃ X dropped filled,
    py.heap σ !! data = Some X ∧
    pdops.drop_columns ["data_chunk"; "txOrder"; "fromId"; "toId"]%string X = Some dropped ∧
    pdops.fillna_column "previousTxType" (pd.Str "First") dropped = Some filled ∧
    py.heap σ' !! Datasets.data self = Some filled.
Proof.
  intros H. pose proof (init_Some _ _ _ _ _ _ _ H) as (X & filled & HX & Hs & Ho & Hd & Hσ).
  assert (Hsome : is_Some (py.heap σ !! data)) by (by rewrite HX).
  split; [done|]. split; [by eapply init_frame|].
  split; [intros l Hl; by eapply init_frame|].
  split; [by eapply init_frame|].
  apply split_frame_Some in Hs as (dropped & n_train & n_test & Hdr & Hf & _).
  exists X, dropped, filled. repeat split; try done.
  rewrite Hd, Hσ. simpl. apply lookup_insert_eq.
Qed.

Lemma datasets_input_unchanged_witness :
  ∃ self σ',
    Datasets.__init__ id rotating_permutation 1%positive (1 # 4) session = Some (self, σ') ∧
    Datasets.original_data self = 1%positive ∧
    py.heap σ' !! 1%positive = py.heap session !! 1%positive ∧
    (∀ l, is_Some (py.heap session !! l) → py.heap σ' !! l = py.heap session !! l) ∧
    Datasets.data self ≠ 1%positive ∧
    ∃ X dropped filled,
      py.heap session !! 1%positive = Some X ∧
      pdops.drop_columns ["data_chunk"; "txOrder"; "fromId"; "toId"]%string X = Some dropped ∧
      pdops.fillna_column "previousTxType" (pd.Str "First") dropped = Some filled ∧
      py.heap σ' !! Datasets.data self = Some filled.
Proof.
  eexists _, _. split; [vm_compute; reflexivity|].
  apply (datasets_input_unchanged id rotating_permutation 1%positive (1 # 4) session).
  vm_compute. reflexivity.
Defined.

(** The run above, spelt out: the stored input still has its missing
    values and all eleven columns, the working copy has neither. *)
Example datasets_run :
  ∃ self σ',
    Datasets.__init__ id rotating_permutation 1%positive (1 # 4) session = Some (self, σ') ∧
    py.heap σ' !! Datasets.original_data self = Some transactions ∧
    (pd.column_names <$> py.heap σ' !! Datasets.data self)
      = Some ["txType"; "txAmount"; "fraudulentTx"; "previousTxType";
              "min7PrevTxAmount"; "mean7PrevTxAmount"; "max7PrevTxAmount"]%string ∧
    pd.index (Datasets.train_set self) = [3; 0; 1] ∧
    pd.index (Datasets.test_set self) = [2] ∧
    pdops.records (Datasets.X_Train_DF self)
      = [ (3, [pd.Str "PAYMENT"; pd.Num 5; pd.Str "First"; pd.Num 5; pd.Num 5; pd.Num 5]);
          (0, [pd.Str "PAYMENT"; pd.Num 10; pd.Str "First"; pd.Num 10; pd.Num 10; pd.Num 10]);
          (1, [pd.Str "DEBIT"; pd.Num 20; pd.Str "PAYMENT"; pd.Num 10; pd.Num 15; pd.Num 20]) ].
Proof.
  eexists _, _. split; [vm_compute; reflexivity|].
  repeat split; vm_compute; reflexivity.
Qed.

Lemma rotating_permutation_spec r n : (rotating_permutation r n).1 ≡ₚ seq 0 n.
Proof.
  simpl. unfold rotate. rewrite Permutation_app_comm. by rewrite take_drop.
Qed.

(** C5: given a generator whose permutations are permutations, a run that
    returns splits the working record set (the input less its identifier
    columns, with as many records as the input) by position: the train
    and test sets are its rows at two position lists which together hold
    every position exactly once, so the records of the two sets are
    together the records of the record set, and their sizes sum to the
    input's. *)
Theorem datasets_partition {RandomState : Type}
    (RandomState_seed : nat → RandomState)
    (rng_permutation : RandomState → nat → list nat * RandomState)
    (data : py.loc) (test_size : Q) (σ σ' : py.state RandomState) (self : Datasets.t) :
  (∀ r n, (rng_permutation r n).1 ≡ₚ seq 0 n) →
  Datasets.__init__ RandomState_seed rng_permutation data test_size σ = Some (self, σ') →
  ∃ input working ind_train ind_test,
    py.heap σ !! data = Some input ∧
    py.heap σ' !! Datasets.data self = Some working ∧
    pd.len working = pd.len input ∧
    pdops.take_rows ind_train working = Some (Datasets.train_set self) ∧
    pdops.take_rows ind_test working = Some (Datasets.test_set self) ∧
    ind_train ++ ind_test ≡ₚ seq 0 (pd.len working) ∧
    NoDup (ind_train ++ ind_test) ∧
    pdops.records (Datasets.train_set self) ++ pdops.records (Datasets.test_set self)
      ≡ₚ pdops.records working ∧
    pd.len (Datasets.train_set self) + pd.len (Datasets.test_set self) = pd.len input.
Proof.
  intros Hperm H.
  pose proof (init_Some _ _ _ _ _ _ _ H) as (X & filled & HX & Hs & _ & Hd & Hσ).
  apply split_frame_Some in Hs
    as (dropped & n_train & n_test & Hdr & Hf & Hv & Htr & Hte & _).
  apply validate_shuffle_split_Some in Hv as [Hn _].
  assert (Hlen : pd.len filled = pd.len X).
  { unfold pd.len. apply drop_columns_index in Hdr. apply fillna_column_index in Hf.
    by rewrite Hf, Hdr. }
  set (p := seeded_permutation RandomState_seed rng_permutation (pd.len filled)) in *.
  assert (Hp : p ≡ₚ seq 0 (pd.len filled)) by apply Hperm.
  assert (Happ : take n_test p ++ take n_train (drop n_test p) = p).
  { rewrite Hn. apply (split_indices_app (pd.len filled) n_test p).
    by rewrite Hp, length_seq. }
  assert (Hind : take n_train (drop n_test p) ++ take n_test p ≡ₚ seq 0 (pd.len filled)).
  { by rewrite Permutation_app_comm, Happ. }
  exists X, filled, (take n_train (drop n_test p)), (take n_test p).
  split; [done|]. split; [rewrite Hd, Hσ; simpl; apply lookup_insert_eq|].
  split; [done|]. split; [done|]. split; [done|]. split; [done|].
  split; [rewrite Hind; apply NoDup_seq|]. split.
  - rewrite (records_take_rows _ _ _ Htr), (records_take_rows _ _ _ Hte).
    rewrite <- omap_app. unfold pdops.records. by rewrite Hind.
  - rewrite (take_rows_len _ _ _ Htr), (take_rows_len _ _ _ Hte).
    rewrite <- length_app, Hind, length_seq. done.
Qed.

Lemma datasets_partition_witness :
  ∃ self σ',
    Datasets.__init__ id rotating_permutation 1%positive (1 # 4) session = Some (self, σ') ∧
    ∃ input working ind_train ind_test,
      py.heap session !! 1%positive = Some input ∧
      py.heap σ' !! Datasets.data self = Some working ∧
      pd.len working = pd.len input ∧
      pdops.take_rows ind_train working = Some (Datasets.train_set self) ∧
      pdops.take_rows ind_test working = Some (Datasets.test_set self) ∧
      ind_train ++ ind_test ≡ₚ seq 0 (pd.len working) ∧
      NoDup (ind_train ++ ind_test) ∧
      pdops.records (Datasets.train_set self) ++ pdops.records (Datasets.test_set self)
        ≡ₚ pdops.records working ∧
      pd.len (Datasets.train_set self) + pd.len (Datasets.test_set self) = pd.len input.
Proof.
  eexists _, _. split; [vm_compute; reflexivity|].
  apply (datasets_partition id rotating_permutation 1%positive (1 # 4) session).
  - exact rotating_permutation_spec.
  - vm_compute. reflexivity.
Defined.

(** ** prevTxFeatures *)
Section prevTxFeatures_facts.
Import pd features.








End prevTxFeatures_facts.

Example client_group_is_entity_frame : entity_frame [10; 20; 60]%Q client_group.
Proof.
  split; [simpl; lia|]. split.
  - repeat constructor.
  - eexists. split; reflexivity.
Qed.

(** C6: on a client with amounts 10, 20, 60 the second transaction gets
    minimum 10, mean 15, maximum 20, the summary of the amounts 10 and 20,
    its own included; the one transaction before it has the summary
    10, 10, 10.  The first transaction, with none before it, gets its own
    amount three times. *)
Theorem prevTxFeatures_counts_current_transaction :
  ∃ data',
    features.prevTxFeatures client_group features.default_lastK = Some data' ∧
    features.features_at 1 data' = Some (pd.Num 10, pd.Num 15, pd.Num 20) ∧
    features.summary (features.prior_window 7 1 [10; 20; 60]%Q)
      = (pd.Num 10, pd.Num 10, pd.Num 10) ∧
    features.features_at 0 data' = Some (pd.Num 10, pd.Num 10, pd.Num 10) ∧
    features.summary (features.prior_window 7 0 [10; 20; 60]%Q)
      = (pd.NaN, pd.NaN, pd.NaN).
Proof.
  eexists. split; [vm_compute; reflexivity|].
  repeat split; vm_compute; reflexivity.
Qed.

(** ** Confusion matrix and scores *)
Section metrics_facts.
Import metrics.

Lemma count_cons i j a b y_true y_pred :
  count i j (a :: y_true) (b :: y_pred)
  = (if decide (a = i ∧ b = j) then 1 else 0) + count i j y_true y_pred.
Proof.
  unfold count. simpl. rewrite filter_cons. simpl. by case_decide.
Qed.

(** Predicted positives are the false and the true positives. *)
Lemma pred_sum_split y_true : ∀ y_pred,
  length y_true = length y_pred →
  pred_sum y_pred = count false true y_true y_pred + count true true y_true y_pred.
Proof.
  induction y_true as [|a y_true IH]; intros [|b y_pred] Hlen; try done.
  injection Hlen as Hlen. rewrite !count_cons. specialize (IH y_pred Hlen).
  unfold pred_sum in *. rewrite filter_cons.
  destruct a, b; repeat case_decide; simpl; rewrite ?IH; try lia; naive_solver.
Qed.

(** Actual positives are the false negatives and the true positives. *)
Lemma true_sum_split y_true : ∀ y_pred,
  length y_true = length y_pred →
  true_sum y_true = count true false y_true y_pred + count true true y_true y_pred.
Proof.
  induction y_true as [|a y_true IH]; intros [|b y_pred] Hlen; try done.
  injection Hlen as Hlen. rewrite !count_cons. specialize (IH y_pred Hlen).
  unfold true_sum in *. rewrite filter_cons.
  destruct a, b; repeat case_decide; simpl; rewrite ?IH; try lia; naive_solver.
Qed.


(** The entries of a two-by-two confusion matrix are the four counts. *)
Lemma confusion_matrix_2x2 y_true y_pred tn fp fn tp :
  confusion_matrix y_true y_pred = Some [[tn; fp]; [fn; tp]] →
  length y_true = length y_pred ∧
  tn = count false false y_true y_pred ∧ fp = count false true y_true y_pred ∧
  fn = count true false y_true y_pred ∧ tp = count true true y_true y_pred.
Proof.
  unfold confusion_matrix. case_decide as Hlen; [|done].
  intros [= H]. split; [done|].
  destruct (unique_labels y_true y_pred) as [|l1 [|l2 [|l3 ls]]] eqn:Hl;
    simpl in H; try done.
  assert (l1 = false ∧ l2 = true) as [-> ->].
  { unfold unique_labels in Hl. rewrite !filter_cons, filter_nil in Hl.
    repeat case_decide; by simplify_eq. }
  by simplify_eq.
Qed.

End metrics_facts.



(** A classifier that never predicts fraud: no predicted positive, so the
    precision is the zero of [_prf_divide], and both identities hold with
    [TP = 0]. *)
Example always_negative_scores :
  metrics.confusion_matrix [false; false; true; false] [false; false; false; false]
    = Some [[3; 0]; [1; 0]] ∧
  metrics.precision_score [false; false; true; false] [false; false; false; false]
    = Some 0%Q ∧
  metrics.recall_score [false; false; true; false] [false; false; false; false]
    = Some (0 / 1)%Q.
Proof. repeat split; vm_compute; reflexivity. Qed.

(** With a single label in both vectors the matrix is one by one. *)
Example confusion_matrix_single_label :
  metrics.confusion_matrix [false; false] [false; false] = Some [[2]].
Proof. vm_compute; reflexivity. Qed.

(** ** The preparation pipeline *)
Section pipeline_facts.
Import pd data_prep_pipeline.

(** A selector that has transformed [X] gives the same answer, and stays
    the same, when it transforms [X] again. *)
Lemma selector_transform_again self X self' out :
  AttributeSelector.transform self X = Some (self', out) →
  AttributeSelector.transform self' X = Some (self', out).
Proof.
  unfold AttributeSelector.transform. intros H.
  destruct (getitem_list X _) as [sel|] eqn:Hsel; simpl in H; [|done].
  injection H as <- <-. simpl. by rewrite Hsel.
Qed.

(** The scaler transforms with the statistics its fit stored. *)
Lemma scaler_fit_transform sqrt self x self' out :
  StandardScaler.fit_transform sqrt self x = Some (self', out) →
  StandardScaler.transform self' x = Some out.
Proof.
  unfold StandardScaler.fit_transform. intros H.
  destruct (StandardScaler.fit sqrt self x) as [fitted|]; simpl in H; [|done].
  destruct (StandardScaler.transform fitted x) as [out'|] eqn:Ht; simpl in H; [|done].
  by injection H as <- <-.
Qed.

End pipeline_facts.

(** C3: when [fit_transform] on a record set returns a matrix, [transform]
    of the fitted pipeline on the same record set returns that same
    matrix, and leaves the pipeline as fitted. *)
Theorem fit_transform_then_transform (sqrt : Q → Q)
    (self self' : data_prep_pipeline.t) (X : pd.DataFrame) (out : np.ndarray pd.cell) :
  data_prep_pipeline.fit_transform sqrt self X = Some (self', out) →
  data_prep_pipeline.transform self' X = Some (self', out).
Proof.
  unfold data_prep_pipeline.fit_transform, data_prep_pipeline.transform.
  unfold data_prep_pipeline.quant_fit_transform, data_prep_pipeline.qual_fit_transform.
  unfold data_prep_pipeline.quant_transform, data_prep_pipeline.qual_transform.
  unfold AttributeSelector.fit_transform, AttributeSelector.fit.
  unfold MyLabelBinarizer.fit_transform, MyLabelBinarizer.fit.
  intros H.
  destruct (AttributeSelector.transform (data_prep_pipeline.quant_selector self) X)
    as [[selector Xt]|] eqn:Hsel; simpl in H; [|done].
  destruct (StandardScaler.fit_transform sqrt _ Xt) as [[scaler quant]|] eqn:Hsc;
    simpl in H; [|done].
  destruct (AttributeSelector.transform (data_prep_pipeline.qual_selector self) X)
    as [[selector' Xq]|] eqn:Hsel'; simpl in H; [|done].
  destruct (data_prep_pipeline.as_labels Xq) as [labels|] eqn:Hl; simpl in H; [|done].
  destruct (MyLabelBinarizer.transform _ labels) as [qual|] eqn:Hb; simpl in H; [|done].
  injection H as <- <-. simpl.
  rewrite (selector_transform_again _ _ _ _ Hsel). simpl.
  rewrite (scaler_fit_transform _ _ _ _ _ Hsc). simpl.
  rewrite (selector_transform_again _ _ _ _ Hsel'). simpl.
  rewrite Hl. simpl. rewrite Hb. done.
Qed.

Lemma fit_transform_then_transform_witness :
  ∃ self' out,
    data_prep_pipeline.fit_transform newton_sqrt data_prep_pipeline.__init__ sample_frame
      = Some (self', out) ∧
    np.shape1 out = 8 ∧
    data_prep_pipeline.transform self' sample_frame = Some (self', out).
Proof.
  eexists _, _. split; [vm_compute; reflexivity|]. split; [reflexivity|].
  apply (fit_transform_then_transform newton_sqrt data_prep_pipeline.__init__).
  vm_compute. reflexivity.
Defined.

Example transform_other_frame :
  ∃ self' out self'' out',
    data_prep_pipeline.fit_transform newton_sqrt data_prep_pipeline.__init__ sample_frame
      = Some (self', out) ∧
    data_prep_pipeline.transform self' narrow_frame = Some (self'', out') ∧
    np.shape1 out = 8 ∧ np.shape1 out' = 6.
Proof.
  eexists _, _, _, _. split; [vm_compute; reflexivity|].
  split; [vm_compute; reflexivity|]. split; reflexivity.
Qed.

(** * Further properties *)

(** ** MyLabelBinarizer: when it raises, and the shape of what it returns *)
Section MyLabelBinarizer_shape.
Import MyLabelBinarizer.

Lemma unique_nonempty (col : list string) : col ≠ [] → np.unique col ≠ [].
Proof.
  destruct col as [|v col]; [done|]. intros _ Hnil.
  assert (Hv : v ∈ np.unique (v :: col)) by (apply elem_of_unique; left).
  rewrite Hnil in Hv. by apply elem_of_nil in Hv.
Qed.

Lemma label_binarize_unique (col : list string) :
  col ≠ [] →
  ∃ block, label_binarize col (np.unique col) = Some block ∧
           length block = block_width col.
Proof.
  intros Hcol. pose proof (unique_nonempty col Hcol) as Hu.
  unfold label_binarize, block_width, type_of_target.
  destruct col as [|v col]; [done|].
  destruct (np.unique (v :: col)) as [|a [|b [|c l]]] eqn:E; [done|..]; simpl.
  - eexists. split; [reflexivity|done].
  - eexists. split; [reflexivity|done].
  - eexists. split; [reflexivity|]. simpl. by rewrite length_fmap.
Qed.

Lemma label_binarize_Some_nonempty col classes block :
  label_binarize col classes = Some block → col ≠ [].
Proof. by destruct col. Qed.

End MyLabelBinarizer_shape.

(** X1: the encoder returns a matrix exactly when its input has at least
    one column and no column is empty; with no column [np.hstack] raises,
    with no row [label_binarize] does. *)
Theorem binarizer_returns_iff (x : np.ndarray string) :
  is_Some (MyLabelBinarizer.transform MyLabelBinarizer.mk x)
  ↔ x ≠ [] ∧ Forall (λ col, col ≠ []) x.
Proof.
  unfold MyLabelBinarizer.transform. split.
  - intros [out H]. apply bind_Some in H as (blocks & Hm & Hh).
    apply mapM_Some in Hm. split.
    + intros ->. apply Forall2_nil_inv_l in Hm as ->. done.
    + clear Hh. induction Hm as [|col block x blocks Hb _ IH]; constructor; [|done].
      by eapply label_binarize_Some_nonempty.
  - intros [Hx Hall].
    assert (Hm : is_Some (mapM (λ col, MyLabelBinarizer.label_binarize col (np.unique col)) x)).
    { apply mapM_is_Some. eapply Forall_impl; [exact Hall|]. intros col Hcol. simpl.
      destruct (label_binarize_unique col Hcol) as (block & -> & _). done. }
    destruct Hm as [blocks Hm]. rewrite Hm. simpl.
    apply mapM_Some in Hm. destruct Hm; [done|]. done.
Qed.

Lemma transform_shape1 (x : np.ndarray string) (out : np.ndarray Z) :
  MyLabelBinarizer.transform MyLabelBinarizer.mk x = Some out →
  np.shape1 out = sum_list (block_width <$> x).
Proof.
  unfold MyLabelBinarizer.transform. intros H.
  apply bind_Some in H as (blocks & Hm & Hh).
  apply hstack_Some in Hh as ->. apply mapM_Some in Hm. unfold np.shape1.
  induction Hm as [|col block x blocks Hb _ IH]; [done|].
  rewrite fmap_cons. cbn [concat sum_list sum_list_with]. rewrite length_app, IH.
  f_equal.
  destruct (label_binarize_unique col (label_binarize_Some_nonempty _ _ _ Hb))
    as (block' & Hb' & <-).
  simpl in Hb. rewrite Hb in Hb'. by injection Hb' as <-.
Qed.

Lemma transform_rows (n : nat) (x : np.ndarray string) (out : np.ndarray Z) :
  np.well_formed n x →
  MyLabelBinarizer.transform MyLabelBinarizer.mk x = Some out →
  np.well_formed n out.
Proof.
  unfold MyLabelBinarizer.transform, np.well_formed. intros Hwf H.
  apply bind_Some in H as (blocks & Hm & Hh).
  apply hstack_Some in Hh as ->. apply mapM_Some in Hm.
  apply Forall_concat.
  induction Hm as [|col block x blocks Hb _ IH]; [constructor|].
  apply Forall_cons in Hwf as [Hcol Hwf]. constructor; [|by apply IH].
  rewrite <- Hcol. by eapply label_binarize_rows.
Qed.

(** X2: the matrix the encoder returns has, for each source column, one
    column when the source column holds one or two distinct values and as
    many columns as distinct values when it holds three or more. *)
Theorem binarizer_width (x : np.ndarray string) (out : np.ndarray Z) :
  MyLabelBinarizer.transform MyLabelBinarizer.mk x = Some out →
  np.shape1 out = sum_list (block_width <$> x).
Proof. apply transform_shape1. Qed.

Lemma binarizer_width_witness :
  MyLabelBinarizer.transform MyLabelBinarizer.mk
    [["A"; "B"; "A"; "B"]; ["X"; "Y"; "Z"; "X"]; ["K"; "K"; "K"; "K"]]%string
    = Some [[0;1;0;1]; [1;0;0;1]; [0;1;0;0]; [0;0;1;0]; [0;0;0;0]]%Z
  ∧ np.shape1 [[0;1;0;1]; [1;0;0;1]; [0;1;0;0]; [0;0;1;0]; [0;0;0;0]]%Z
    = sum_list (block_width <$>
        [["A"; "B"; "A"; "B"]; ["X"; "Y"; "Z"; "X"]; ["K"; "K"; "K"; "K"]]%string).
Proof.
  split; [vm_compute; reflexivity|].
  apply (binarizer_width
    [["A"; "B"; "A"; "B"]; ["X"; "Y"; "Z"; "X"]; ["K"; "K"; "K"; "K"]]%string).
  vm_compute; reflexivity.
Defined.

(** X3: the encoded matrix has as many rows as the matrix it encodes. *)
Theorem binarizer_keeps_rows (n : nat) (x : np.ndarray string) (out : np.ndarray Z) :
  np.well_formed n x →
  MyLabelBinarizer.transform MyLabelBinarizer.mk x = Some out →
  np.well_formed n out.
Proof. apply transform_rows. Qed.

Lemma binarizer_keeps_rows_witness :
  np.well_formed 3 [["A"; "B"; "A"]; ["X"; "Y"; "Z"]]%string ∧
  np.well_formed 3 [[0;1;0]; [1;0;0]; [0;1;0]; [0;0;1]]%Z.
Proof.
  split; [repeat constructor|].
  apply (binarizer_keeps_rows 3 [["A"; "B"; "A"]; ["X"; "Y"; "Z"]]%string).
  - repeat constructor.
  - vm_compute; reflexivity.
Defined.

Section one_hot_rows.
Import MyLabelBinarizer.

Lemma row_app {A} (i : nat) (x y : np.ndarray A) rx ry :
  np.row i x = Some rx → np.row i y = Some ry → np.row i (x ++ y) = Some (rx ++ ry).
Proof.
  unfold np.row. rewrite !mapM_Some. apply Forall2_app.
Qed.

Lemma row_indicators (i : nat) (col classes : list string) v :
  col !! i = Some v →
  np.row i (indicator col <$> classes)
  = Some ((λ c, if String.eqb v c then 1%Z else 0%Z) <$> classes).
Proof.
  intros Hv. unfold np.row. apply mapM_Some.
  apply Forall2_fmap, Forall_Forall2_diag, Forall_forall. intros c _.
  unfold indicator. by rewrite list_lookup_fmap, Hv.
Qed.

Lemma row_total_app r1 r2 : row_total (r1 ++ r2) = (row_total r1 + row_total r2)%Z.
Proof.
  unfold row_total. induction r1 as [|z r1 IH]; simpl; [done|].
  rewrite IH. lia.
Qed.

Lemma row_total_absent (classes : list string) v :
  v ∉ classes →
  row_total ((λ c, if String.eqb v c then 1%Z else 0%Z) <$> classes) = 0%Z.
Proof.
  induction classes as [|c classes IH]; [done|]. intros Hv.
  apply not_elem_of_cons in Hv as [Hne Hv]. rewrite fmap_cons. cbn [row_total foldr].
  fold (row_total ((λ c, if String.eqb v c then 1%Z else 0%Z) <$> classes)).
  rewrite (IH Hv). apply String.eqb_neq in Hne. by rewrite Hne.
Qed.

(** Among duplicate-free classes a value is marked once. *)
Lemma row_total_present (classes : list string) v :
  NoDup classes → v ∈ classes →
  row_total ((λ c, if String.eqb v c then 1%Z else 0%Z) <$> classes) = 1%Z.
Proof.
  induction 1 as [|c classes Hc Hnd IH]; intros Hv; [by apply elem_of_nil in Hv|].
  rewrite fmap_cons. cbn [row_total foldr].
  fold (row_total ((λ c, if String.eqb v c then 1%Z else 0%Z) <$> classes)).
  destruct (String.eqb v c) eqn:E.
  - apply String.eqb_eq in E as ->. by rewrite (row_total_absent _ _ Hc).
  - apply String.eqb_neq in E. apply elem_of_cons in Hv as [->|Hv]; [done|].
    by rewrite (IH Hv).
Qed.

End one_hot_rows.

(** X4: when every source column holds three or more distinct values,
    each row of the encoded matrix holds exactly one 1 per source column:
    its entries sum to the number of source columns. *)
Theorem binarizer_rows_one_hot (n i : nat) (x : np.ndarray string) (out : np.ndarray Z) :
  np.well_formed n x →
  Forall (λ col, 3 ≤ length (np.unique col)) x →
  MyLabelBinarizer.transform MyLabelBinarizer.mk x = Some out →
  i < n →
  ∃ r, np.row i out = Some r ∧ row_total r = Z.of_nat (length x).
Proof.
  intros Hwf Hall Hout Hi.
  destruct (decide (x = [])) as [->|Hx]; [done|].
  rewrite (transform_multiclass x Hx Hall) in Hout. injection Hout as <-. clear Hx.
  induction Hall as [|col x Hcol Hall IH].
  - by exists [].
  - apply Forall_cons in Hwf as [Hlen Hwf]. destruct (IH Hwf) as (r & Hr & Ht).
    destruct (lookup_lt_is_Some_2 col i ltac:(lia)) as [v Hv].
    eexists. split.
    + rewrite fmap_cons. cbn [concat].
      apply row_app; [by apply row_indicators|exact Hr].
    + rewrite row_total_app, Ht, row_total_present.
      * simpl. lia.
      * apply unique_NoDup.
      * apply elem_of_unique. by eapply list_elem_of_lookup_2.
Qed.

Lemma binarizer_rows_one_hot_witness :
  ∃ r, np.row 1 [[0;1;0;1]; [1;0;0;0]; [0;0;1;0]; [1;0;0;0]; [0;1;0;1]; [0;0;1;0]]%Z = Some r
       ∧ row_total r = Z.of_nat 2.
Proof.
  apply (binarizer_rows_one_hot 4 1
           [["B"; "A"; "C"; "A"]; ["First"; "PAYMENT"; "TRANSFER"; "PAYMENT"]]%string).
  - repeat constructor.
  - repeat constructor; vm_compute; lia.
  - vm_compute; reflexivity.
  - lia.
Defined.

(** ** The preparation pipeline: when it raises, and what it forgets *)
Section pipeline_edges.
Import pd data_prep_pipeline.

Lemma getitem_list_nil X : getitem_list X [] = Some (mkDataFrame (index X) []).
Proof. reflexivity. Qed.

(** A selector with nothing to select returns an array without columns. *)
Lemma selector_transform_none self X :
  (if AttributeSelector.quantitative self
   then quantitative_columns X else qualitative_columns X) = [] →
  AttributeSelector.transform self X
  = Some (AttributeSelector.mk (AttributeSelector.quantitative self) (Some []), []).
Proof.
  unfold AttributeSelector.transform, select_dtypes_exclude, select_dtypes_include,
    column_names, quantitative_columns, qualitative_columns.
  simpl. by destruct (AttributeSelector.quantitative self); intros ->.
Qed.

Lemma selector_transform_flag self X self' out :
  AttributeSelector.transform self X = Some (self', out) →
  AttributeSelector.quantitative self' = AttributeSelector.quantitative self.
Proof.
  unfold AttributeSelector.transform. intros H.
  apply bind_Some in H as (sel & _ & H). by injection H as <- _.
Qed.

(** A selector's answer depends on its mode only. *)
Lemma selector_transform_mode self1 self2 X :
  AttributeSelector.quantitative self1 = AttributeSelector.quantitative self2 →
  AttributeSelector.transform self1 X = AttributeSelector.transform self2 X.
Proof. unfold AttributeSelector.transform. by intros ->. Qed.

End pipeline_edges.

(** X5: [transform] of a pipeline that was never fitted raises, whatever
    the record set: the scaler has no mean and scale yet. *)
Theorem pipeline_transform_unfitted (X : pd.DataFrame) :
  data_prep_pipeline.transform data_prep_pipeline.__init__ X = None.
Proof.
  unfold data_prep_pipeline.transform, data_prep_pipeline.quant_transform.
  destruct (AttributeSelector.transform _ X) as [[selector Xt]|]; done.
Qed.

(** X6: on a record set without a qualitative column the pipeline raises,
    in [fit_transform] as in [transform]: the qualitative selector
    returns an array without columns and the encoder has nothing to
    stack. *)
Theorem pipeline_needs_qualitative (sqrt : Q → Q) (self : data_prep_pipeline.t)
    (X : pd.DataFrame) :
  configured self →
  qualitative_columns X = [] →
  data_prep_pipeline.fit_transform sqrt self X = None ∧
  data_prep_pipeline.transform self X = None.
Proof.
  intros [_ Hq] Hnone.
  assert (Hsel : ∀ s, AttributeSelector.quantitative s = false →
            AttributeSelector.transform s X
            = Some (AttributeSelector.mk false (Some []), [])).
  { intros s Hs. rewrite (selector_transform_none s X); rewrite Hs; done. }
  split.
  - unfold data_prep_pipeline.fit_transform.
    destruct (data_prep_pipeline.quant_fit_transform sqrt self X) as [[p quant]|] eqn:E;
      simpl; [|done].
    unfold data_prep_pipeline.quant_fit_transform in E.
    apply bind_Some in E as ([selector Xt] & _ & E).
    apply bind_Some in E as ([scaler Xt'] & _ & E). injection E as <- _.
    unfold data_prep_pipeline.qual_fit_transform, AttributeSelector.fit_transform,
      AttributeSelector.fit. simpl. by rewrite (Hsel _ Hq).
  - unfold data_prep_pipeline.transform.
    destruct (data_prep_pipeline.quant_transform self X) as [[p quant]|] eqn:E;
      simpl; [|done].
    unfold data_prep_pipeline.quant_transform in E.
    apply bind_Some in E as ([selector Xt] & _ & E).
    apply bind_Some in E as (Xt' & _ & E). injection E as <- _.
    unfold data_prep_pipeline.qual_transform. simpl. by rewrite (Hsel _ Hq).
Qed.

Lemma pipeline_needs_qualitative_witness :
  data_prep_pipeline.fit_transform newton_sqrt data_prep_pipeline.__init__
    (pd.mkDataFrame [0; 1]
       [pd.mkSeries "txAmount" pd.float64 [pd.Num 10; pd.Num 20]]) = None ∧
  data_prep_pipeline.transform data_prep_pipeline.__init__
    (pd.mkDataFrame [0; 1]
       [pd.mkSeries "txAmount" pd.float64 [pd.Num 10; pd.Num 20]]) = None.
Proof.
  apply (pipeline_needs_qualitative newton_sqrt data_prep_pipeline.__init__).
  - split; reflexivity.
  - vm_compute; reflexivity.
Defined.

(** X7: on a record set without a quantitative column [fit_transform]
    raises: the scaler refuses an array without columns. *)
Theorem pipeline_needs_quantitative (sqrt : Q → Q) (self : data_prep_pipeline.t)
    (X : pd.DataFrame) :
  configured self →
  quantitative_columns X = [] →
  data_prep_pipeline.fit_transform sqrt self X = None.
Proof.
  intros [Hq _] Hnone.
  unfold data_prep_pipeline.fit_transform, data_prep_pipeline.quant_fit_transform,
    AttributeSelector.fit_transform, AttributeSelector.fit.
  rewrite (selector_transform_none _ X) by (by rewrite Hq). done.
Qed.

Lemma pipeline_needs_quantitative_witness :
  data_prep_pipeline.fit_transform newton_sqrt data_prep_pipeline.__init__
    (pd.mkDataFrame [0; 1]
       [pd.mkSeries "txType" pd.object [pd.Str "DEBIT"; pd.Str "PAYMENT"]]) = None.
Proof.
  apply (pipeline_needs_quantitative newton_sqrt data_prep_pipeline.__init__).
  - split; reflexivity.
  - vm_compute; reflexivity.
Defined.

(** X8: [fit_transform] forgets every earlier fit: on any pipeline set up
    as the notebook's it returns what it returns on a fresh one, so the
    matrix the notebook prepares from the test set is scaled by the test
    set's own mean and deviation, not by the training set's. *)
Theorem pipeline_refit_forgets (sqrt : Q → Q) (self : data_prep_pipeline.t)
    (X : pd.DataFrame) :
  configured self →
  data_prep_pipeline.fit_transform sqrt self X
  = data_prep_pipeline.fit_transform sqrt data_prep_pipeline.__init__ X.
Proof.
  intros [Hq Hc].
  destruct self as [[q1 n1] scaler [q2 n2] []]. simpl in Hq, Hc. subst.
  unfold data_prep_pipeline.fit_transform, data_prep_pipeline.quant_fit_transform,
    data_prep_pipeline.qual_fit_transform, AttributeSelector.fit_transform,
    AttributeSelector.fit, StandardScaler.fit_transform, StandardScaler.fit.
  simpl.
  rewrite (selector_transform_mode (AttributeSelector.mk true n1)
             (AttributeSelector.__init__ true) X eq_refl).
  destruct (AttributeSelector.transform (AttributeSelector.__init__ true) X)
    as [[selector Xt]|]; simpl; [|done].
  destruct (StandardScaler.check_array Xt) as [Xt'|]; simpl; [|done].
  destruct (StandardScaler.transform _ Xt) as [quant|]; simpl; [|done].
  rewrite (selector_transform_mode (AttributeSelector.mk false n2)
             (AttributeSelector.__init__ false) X eq_refl).
  done.
Qed.

Lemma pipeline_refit_forgets_witness :
  data_prep_pipeline.fit_transform newton_sqrt
    (data_prep_pipeline.mk
       (AttributeSelector.mk true (Some ["stale"%string]))
       (StandardScaler.mk (Some [pd.Num 1]) (Some [pd.Num 1]))
       (AttributeSelector.mk false None) MyLabelBinarizer.mk)
    narrow_frame
  = data_prep_pipeline.fit_transform newton_sqrt data_prep_pipeline.__init__ narrow_frame.
Proof.
  apply (pipeline_refit_forgets newton_sqrt
           (data_prep_pipeline.mk
              (AttributeSelector.mk true (Some ["stale"%string]))
              (StandardScaler.mk (Some [pd.Num 1]) (Some [pd.Num 1]))
              (AttributeSelector.mk false None) MyLabelBinarizer.mk)).
  split; reflexivity.
Defined.

(** ** The preparation pipeline: the shape of its output *)
Section pipeline_shape.
Import pd data_prep_pipeline.

Lemma check_array_Some x x' : StandardScaler.check_array x = Some x' → x' = x.
Proof.
  unfold StandardScaler.check_array. destruct x as [|col x]; [done|].
  case_decide; [done|]. intros Hx. apply bind_Some in Hx as (? & _ & Hx).
  by injection Hx.
Qed.

Lemma standardized_rows n (x : np.ndarray cell) (stats : list (cell * cell)) :
  np.well_formed n x →
  np.well_formed n
    (zip_with (λ (col : list cell) '(m, s), StandardScaler.standardize m s <$> col) x stats).
Proof.
  unfold np.well_formed. intros Hx. revert stats.
  induction Hx as [|col x Hcol _ IH]; intros [|[m s] stats]; simpl; try constructor.
  - by rewrite length_fmap.
  - apply IH.
Qed.

Lemma scaler_fit_transform_shape sqrt self x self' out :
  StandardScaler.fit_transform sqrt self x = Some (self', out) →
  length out = length x ∧ ∀ n, np.well_formed n x → np.well_formed n out.
Proof.
  unfold StandardScaler.fit_transform, StandardScaler.fit. intros H.
  apply bind_Some in H as (fitted & Hf & H).
  apply bind_Some in Hf as (x' & Hc & Hf). apply check_array_Some in Hc as ->.
  injection Hf as <-.
  apply bind_Some in H as (out' & Ht & H). injection H as _ <-.
  unfold StandardScaler.transform in Ht. simpl in Ht.
  apply bind_Some in Ht as (x' & Hc & Ht). apply check_array_Some in Hc as ->.
  case_decide; [|done]. injection Ht as <-. split.
  - rewrite length_zip_with, length_zip, !length_fmap. lia.
  - intros n. apply standardized_rows.
Qed.

Lemma as_labels_shape (x : np.ndarray cell) labels :
  as_labels x = Some labels →
  length labels = length x ∧ ∀ n, np.well_formed n x → np.well_formed n labels.
Proof.
  unfold as_labels, np.well_formed. intros H. apply mapM_Some in H.
  split; [symmetry; by eapply Forall2_length|].
  intros n Hwf. induction H as [|col lcol x labels Hc _ IH]; [constructor|].
  apply Forall_cons in Hwf as [Hn Hwf]. constructor; [|by apply IH].
  apply length_mapM in Hc. lia.
Qed.

Lemma as_numbers_rows n (x : np.ndarray Z) :
  np.well_formed n x → np.well_formed n (as_numbers x).
Proof.
  unfold np.well_formed, as_numbers. intros H. apply Forall_fmap.
  eapply Forall_impl; [exact H|]. intros col Hc. simpl. by rewrite length_fmap.
Qed.

Lemma filter_values_rows (P : Series → Prop) `{∀ c, Decision (P c)} X :
  Forall (λ c, length (values c) = len X) (columns X) →
  np.well_formed (len X) (values <$> filter P (columns X)).
Proof.
  intros Hwf. unfold np.well_formed. apply Forall_fmap.
  apply Forall_forall. intros c Hc. apply list_elem_of_filter in Hc as [_ Hc].
  by eapply Forall_forall in Hwf.
Qed.

Lemma pipeline_fit_transform_shape sqrt self X self' out :
  well_formed X → configured self →
  fit_transform sqrt self X = Some (self', out) →
  ∃ labels,
    as_labels (values <$> qualitative_columns X) = Some labels ∧
    np.shape1 out
      = length (quantitative_columns X) + sum_list (block_width <$> labels) ∧
    np.well_formed (len X) out.
Proof.
  intros [Hlen Hnd] [Hq Hc] H.
  unfold fit_transform, quant_fit_transform, qual_fit_transform,
    AttributeSelector.fit_transform, AttributeSelector.fit,
    MyLabelBinarizer.fit_transform, MyLabelBinarizer.fit in H.
  rewrite (transform_eq _ X Hnd), Hq in H. simpl in H.
  destruct (StandardScaler.fit_transform sqrt _ _) as [[scaler quant]|] eqn:Hs;
    simpl in H; [|done].
  rewrite (transform_eq _ X Hnd), Hc in H. simpl in H.
  fold (qualitative_columns X) in H.
  destruct (as_labels _) as [labels|] eqn:Hl; simpl in H; [|done].
  destruct (MyLabelBinarizer.transform _ labels) as [qual|] eqn:Hb; simpl in H; [|done].
  injection H as _ <-. exists labels. split; [done|].
  apply scaler_fit_transform_shape in Hs as [Hs1 Hs2].
  apply as_labels_shape in Hl as [_ Hl2].
  destruct (label_binarizer self).
  split.
  - unfold np.shape1. rewrite app_nil_r, length_app, Hs1. unfold as_numbers.
    rewrite !length_fmap. fold (quantitative_columns X).
    by rewrite <- (transform_shape1 _ _ Hb).
  - unfold np.well_formed. rewrite app_nil_r. apply Forall_app. split.
    + apply Hs2. by apply filter_values_rows.
    + apply as_numbers_rows. eapply transform_rows; [|exact Hb].
      apply Hl2. by apply filter_values_rows.
Qed.

End pipeline_shape.

(** X9: on a record set with distinct column names and full columns, the
    matrix [fit_transform] returns has one row per record, one column per
    quantitative column, and for each qualitative column as many columns
    as the encoder gives it. *)
Theorem pipeline_output_shape (sqrt : Q → Q) (self self' : data_prep_pipeline.t)
    (X : pd.DataFrame) (out : np.ndarray pd.cell) :
  pd.well_formed X → configured self →
  data_prep_pipeline.fit_transform sqrt self X = Some (self', out) →
  ∃ labels,
    data_prep_pipeline.as_labels (pd.values <$> qualitative_columns X) = Some labels ∧
    np.shape1 out
      = length (quantitative_columns X) + sum_list (block_width <$> labels) ∧
    np.well_formed (pd.len X) out.
Proof. apply pipeline_fit_transform_shape. Qed.

Lemma sample_frame_well_formed : pd.well_formed sample_frame.
Proof.
  split; [repeat constructor|].
  apply (bool_decide_unpack (NoDup (pd.column_names sample_frame))).
  vm_compute. exact I.
Qed.

Lemma pipeline_output_shape_witness :
  ∃ self' out,
    data_prep_pipeline.fit_transform newton_sqrt data_prep_pipeline.__init__ sample_frame
      = Some (self', out) ∧
    ∃ labels,
      data_prep_pipeline.as_labels (pd.values <$> qualitative_columns sample_frame)
        = Some labels ∧
      np.shape1 out
        = length (quantitative_columns sample_frame) + sum_list (block_width <$> labels) ∧
      np.well_formed (pd.len sample_frame) out.
Proof.
  eexists _, _. split; [vm_compute; reflexivity|].
  eapply (pipeline_output_shape newton_sqrt data_prep_pipeline.__init__).
  - exact sample_frame_well_formed.
  - split; reflexivity.
  - vm_compute; reflexivity.
Defined.

(** ** Datasets: when the constructor raises *)
Section Datasets_edges.
Import pd pdops.

Lemma validate_shuffle_split_inv n test_size n_train n_test :
  model_selection.validate_shuffle_split n test_size = Some (n_train, n_test) →
  (0 < test_size)%Q ∧ (test_size < 1)%Q ∧
  n_test = Z.to_nat (Qceiling (test_size * inject_Z (Z.of_nat n))) ∧
  n_train = n - n_test ∧ n_train ≠ 0.
Proof.
  unfold model_selection.validate_shuffle_split, model_selection.Qlt_bool.
  destruct (Qle_bool test_size 0) eqn:E0; [done|].
  destruct (Qle_bool 1 test_size) eqn:E1; [done|]. simpl.
  case_decide; [done|]. intros [= <- <-].
  split; [|split; [|done]].
  - apply Qnot_le_lt. intros Hle. apply Qle_bool_iff in Hle. congruence.
  - apply Qnot_le_lt. intros Hle. apply Qle_bool_iff in Hle. congruence.
Qed.

(** A positive fraction of at least one record rounds up to at least one
    record. *)
Lemma ceiling_fraction_pos (test_size : Q) (n : nat) :
  (0 < test_size)%Q → 0 < n →
  0 < Z.to_nat (Qceiling (test_size * inject_Z (Z.of_nat n))).
Proof.
  intros Hts Hn.
  assert (Hpos : (0 < test_size * inject_Z (Z.of_nat n))%Q).
  { apply Qmult_lt_0_compat; [done|]. rewrite <- (Zlt_Qlt 0). lia. }
  pose proof (Qle_ceiling (test_size * inject_Z (Z.of_nat n))) as Hc.
  assert (Hz : (0 < inject_Z (Qceiling (test_size * inject_Z (Z.of_nat n))))%Q)
    by (eapply Qlt_le_trans; eauto).
  rewrite <- (Zlt_Qlt 0) in Hz. lia.
Qed.

Lemma validate_shuffle_split_small n test_size :
  n ≤ 1 → model_selection.validate_shuffle_split n test_size = None.
Proof.
  intros Hn.
  destruct (model_selection.validate_shuffle_split n test_size)
    as [[n_train n_test]|] eqn:E; [|done].
  apply validate_shuffle_split_inv in E as (Hts & _ & Ht & Htr & Hne).
  destruct (decide (n = 0)) as [->|Hn0]; [simpl in Htr; lia|].
  pose proof (ceiling_fraction_pos test_size n Hts ltac:(lia)). lia.
Qed.


Lemma drop_columns_Some labels X Y :
  drop_columns labels X = Some Y →
  Forall (λ lbl, lbl ∈ column_names X) labels ∧
  index Y = index X ∧
  columns Y = filter (λ c, name c ∉ labels) (columns X).
Proof. unfold drop_columns. case_decide; [|done]. by intros [= <-]. Qed.

Lemma fillna_column_Some attr value X Y :
  fillna_column attr value X = Some Y →
  attr ∈ column_names X ∧
  index Y = index X ∧
  columns Y = (λ c, if decide (name c = attr) then fillna value c else c) <$> columns X.
Proof. unfold fillna_column. case_decide; [|done]. by intros [= <-]. Qed.

Lemma fillna_column_names attr value X Y :
  fillna_column attr value X = Some Y → schema Y = schema X.
Proof.
  intros H. apply fillna_column_Some in H as (_ & _ & Hc).
  unfold schema. rewrite Hc, <- list_fmap_compose. apply list_fmap_ext.
  intros i c _. simpl. by case_decide.
Qed.

Lemma take_rows_schema ind X T : take_rows ind X = Some T → schema T = schema X.
Proof.
  unfold take_rows. intros H.
  apply bind_Some in H as (idx & _ & H). apply bind_Some in H as (cols & Hcols & H).
  injection H as <-. unfold schema. simpl. apply mapM_Some in Hcols.
  induction Hcols as [|c c' l l' Hc _ IH]; [done|].
  rewrite !fmap_cons, IH. f_equal.
  apply bind_Some in Hc as (vs & _ & Hc). by injection Hc as <-.
Qed.

Lemma schema_names X Y : schema X = schema Y → column_names X = column_names Y.
Proof.
  unfold schema, column_names. intros H.
  rewrite (list_fmap_ext name (fst ∘ (λ c, (name c, dt c))) (columns X)) by done.
  rewrite (list_fmap_ext name (fst ∘ (λ c, (name c, dt c))) (columns Y)) by done.
  by rewrite !list_fmap_compose, H.
Qed.

Lemma drop_columns_names labels X Y lbl :
  drop_columns labels X = Some Y →
  lbl ∈ column_names Y ↔ lbl ∈ column_names X ∧ lbl ∉ labels.
Proof.
  intros H. apply drop_columns_Some in H as (_ & _ & Hc).
  unfold column_names. rewrite Hc, !list_elem_of_fmap. split.
  - intros (c & -> & Hin). apply list_elem_of_filter in Hin as [Hn Hin]. eauto.
  - intros [(c & -> & Hin) Hn]. exists c. split; [done|].
    by apply list_elem_of_filter.
Qed.

End Datasets_edges.

(** X10: a record set of fewer than two records cannot be split: the
    constructor raises, whatever the held-out fraction. *)
Theorem datasets_needs_two_records {RandomState : Type}
    (RandomState_seed : nat → RandomState)
    (rng_permutation : RandomState → nat → list nat * RandomState)
    (data : py.loc) (test_size : Q) (σ : py.state RandomState) (X : pd.DataFrame) :
  py.heap σ !! data = Some X → pd.len X ≤ 1 →
  Datasets.__init__ RandomState_seed rng_permutation data test_size σ = None.
Proof.
  intros HX Hlen. rewrite init_split_frame, HX. simpl.
  destruct (split_frame RandomState_seed rng_permutation test_size X)
    as [[[[filled [train test]] XY_Train] XY_Test]|] eqn:Hs; [|done].
  apply split_frame_Some in Hs as (dropped & n_train & n_test & Hd & Hf & Hv & _).
  rewrite validate_shuffle_split_small in Hv; [done|].
  unfold pd.len in *. apply drop_columns_index in Hd. apply fillna_column_index in Hf.
  by rewrite Hf, Hd.
Qed.

Lemma datasets_needs_two_records_witness :
  Datasets.__init__ id rotating_permutation 1%positive (1 # 4)
    (py.mkState {[ 1%positive :=
        pd.mkDataFrame [0]
          [ pd.mkSeries "fromId" pd.int64 [pd.Num 7];
            pd.mkSeries "fraudulentTx" pd.bool_ [pd.Num 0];
            pd.mkSeries "previousTxType" pd.object [pd.NaN] ] ]} 0) = None.
Proof.
  eapply (datasets_needs_two_records id rotating_permutation 1%positive (1 # 4)).
  - vm_compute; reflexivity.
  - vm_compute; lia.
Defined.

(** X11: the constructor raises when the record set lacks one of the four
    identifier columns it drops, the [previousTxType] column it fills, or
    the [fraudulentTx] label column. *)
Theorem datasets_needs_columns {RandomState : Type}
    (RandomState_seed : nat → RandomState)
    (rng_permutation : RandomState → nat → list nat * RandomState)
    (data : py.loc) (test_size : Q) (σ : py.state RandomState) (X : pd.DataFrame)
    (lbl : string) :
  py.heap σ !! data = Some X →
  lbl ∈ identifier_columns ++ ["previousTxType"; "fraudulentTx"]%string →
  lbl ∉ pd.column_names X →
  Datasets.__init__ RandomState_seed rng_permutation data test_size σ = None.
Proof.
  intros HX Hlbl Hmiss. rewrite init_split_frame, HX. simpl.
  destruct (split_frame RandomState_seed rng_permutation test_size X)
    as [[[[filled [train test]] XY_Train] XY_Test]|] eqn:Hs; [|done].
  exfalso.
  apply split_frame_Some in Hs
    as (dropped & n_train & n_test & Hd & Hf & _ & Htr & _ & HXY & _).
  assert (Hmd : lbl ∉ pd.column_names dropped).
  { intros Hin. by apply (drop_columns_names _ _ _ lbl Hd) in Hin as [Hin _]. }
  apply elem_of_app in Hlbl as [Hid|Hlbl].
  { apply drop_columns_Some in Hd as (Hall & _). by eapply Forall_forall in Hall. }
  apply elem_of_cons in Hlbl as [->|Hlbl].
  { by apply fillna_column_Some in Hf as (Hin & _). }
  apply list_elem_of_singleton in Hlbl as ->.
  apply bind_Some in HXY as (X_Train & Hdt & _).
  apply drop_columns_Some in Hdt as (Hall & _).
  apply Forall_cons in Hall as [Hin _]. apply Hmd.
  rewrite <- (schema_names filled dropped (fillna_column_names _ _ _ _ Hf)).
  by rewrite <- (schema_names train filled (take_rows_schema _ _ _ Htr)).
Qed.

Lemma datasets_needs_columns_witness :
  Datasets.__init__ id rotating_permutation 1%positive (1 # 4)
    (py.mkState {[ 1%positive := sample_frame ]} 0) = None.
Proof.
  eapply (datasets_needs_columns id rotating_permutation 1%positive (1 # 4) _
            sample_frame "fraudulentTx").
  - vm_compute; reflexivity.
  - apply (bool_decide_unpack
             ("fraudulentTx"%string
              ∈ identifier_columns ++ ["previousTxType"; "fraudulentTx"]%string)).
    vm_compute. exact I.
  - apply (bool_decide_unpack ("fraudulentTx"%string ∉ pd.column_names sample_frame)).
    vm_compute. exact I.
Defined.

(** ** Datasets: what the constructor hands out *)
Section Datasets_outputs.
Import pd pdops.



Lemma getitem_Some label X idx s :
  getitem label X = Some (idx, s) → idx = index X ∧ name s = label ∧ s ∈ columns X.
Proof.
  unfold getitem. intros H. apply bind_Some in H as (c & Hc & H). injection H as <- <-.
  apply head_Some in Hc as (l & Hc).
  assert (Hin : c ∈ filter (λ c, name c = label) (columns X)) by (rewrite Hc; left).
  apply list_elem_of_filter in Hin as [Hn Hin]. done.
Qed.




Lemma drop_columns_schema labels X Y :
  drop_columns labels X = Some Y →
  schema Y = filter (λ p, p.1 ∉ labels) (schema X).
Proof.
  intros H. apply drop_columns_Some in H as (_ & _ & Hc).
  unfold schema. rewrite Hc. generalize (columns X).
  induction l as [|c l IH]; [done|].
  rewrite fmap_cons, !filter_cons. simpl. case_decide; [|done].
  by rewrite fmap_cons, IH.
Qed.

End Datasets_outputs.





(** X14: the feature frames a run hands out never hold the label column
    or one of the identifier columns, and each label series is the
    [fraudulentTx] column of its set and carries the row labels of the
    feature frame beside it. *)
Theorem datasets_features_and_labels {RandomState : Type}
    (RandomState_seed : nat → RandomState)
    (rng_permutation : RandomState → nat → list nat * RandomState)
    (data : py.loc) (test_size : Q) (σ σ' : py.state RandomState) (self : Datasets.t) :
  Datasets.__init__ RandomState_seed rng_permutation data test_size σ = Some (self, σ') →
  (∀ lbl, lbl ∈ ("fraudulentTx"%string :: identifier_columns) →
     (lbl ∉ pd.column_names (Datasets.X_Train_DF self)) ∧
     (lbl ∉ pd.column_names (Datasets.X_Test_DF self))) ∧
  (Datasets.Y_Train self).1 = pd.index (Datasets.X_Train_DF self) ∧
  (Datasets.Y_Test self).1 = pd.index (Datasets.X_Test_DF self) ∧
  pd.name (Datasets.Y_Train self).2 = "fraudulentTx"%string ∧
  pd.name (Datasets.Y_Test self).2 = "fraudulentTx"%string ∧
  (Datasets.Y_Train self).2 ∈ pd.columns (Datasets.train_set self) ∧
  (Datasets.Y_Test self).2 ∈ pd.columns (Datasets.test_set self).
Proof.
  intros H.
  pose proof (init_Some _ _ _ _ _ _ _ H) as (X & filled & _ & Hs & _).
  apply split_frame_Some in Hs
    as (dropped & n_train & n_test & Hd & Hf & _ & Htr & Hte & HXY & HXY').
  apply bind_Some in HXY as (X_Train & Hdt & HXY).
  apply bind_Some in HXY as ([itr str] & Hgt & HXY).
  apply bind_Some in HXY' as (X_Test & Hde & HXY').
  apply bind_Some in HXY' as ([ite ste] & Hge & HXY').
  injection HXY as HX1 HY1. injection HXY' as HX2 HY2.
  rewrite <- HX1, <- HY1, <- HX2, <- HY2. simpl.
  apply getitem_Some in Hgt as (-> & Hn1 & Hin1).
  apply getitem_Some in Hge as (-> & Hn2 & Hin2).
  pose proof (drop_columns_index _ _ _ Hdt) as Hi1.
  pose proof (drop_columns_index _ _ _ Hde) as Hi2.
  split; [|by rewrite Hi1, Hi2].
  assert (Hnames : ∀ Y T lbl,
            pdops.drop_columns ["fraudulentTx"%string] T = Some Y →
            schema T = schema filled →
            lbl ∈ ("fraudulentTx"%string :: identifier_columns) →
            lbl ∉ pd.column_names Y).
  { intros Y T lbl HdY HsT Hlbl Hin.
    apply (drop_columns_names _ _ _ lbl HdY) in Hin as [Hin Hnot].
    apply elem_of_cons in Hlbl as [->|Hlbl]; [apply Hnot; left|].
    rewrite (schema_names T filled HsT) in Hin.
    rewrite (schema_names filled dropped (fillna_column_names _ _ _ _ Hf)) in Hin.
    by apply (drop_columns_names _ _ _ lbl Hd) in Hin as [_ Hin]. }
  intros lbl Hlbl. split.
  - eapply Hnames; [exact Hdt| |exact Hlbl]. by eapply take_rows_schema.
  - eapply Hnames; [exact Hde| |exact Hlbl]. by eapply take_rows_schema.
Qed.

Lemma datasets_features_and_labels_witness :
  ∃ self σ',
    Datasets.__init__ id rotating_permutation 1%positive (1 # 4) session = Some (self, σ') ∧
    (∀ lbl, lbl ∈ ("fraudulentTx"%string :: identifier_columns) →
       (lbl ∉ pd.column_names (Datasets.X_Train_DF self)) ∧
       (lbl ∉ pd.column_names (Datasets.X_Test_DF self))) ∧
    (Datasets.Y_Train self).1 = pd.index (Datasets.X_Train_DF self) ∧
    (Datasets.Y_Test self).1 = pd.index (Datasets.X_Test_DF self) ∧
    pd.name (Datasets.Y_Train self).2 = "fraudulentTx"%string ∧
    pd.name (Datasets.Y_Test self).2 = "fraudulentTx"%string ∧
    (Datasets.Y_Train self).2 ∈ pd.columns (Datasets.train_set self) ∧
    (Datasets.Y_Test self).2 ∈ pd.columns (Datasets.test_set self).
Proof.
  eexists _, _. split; [vm_compute; reflexivity|].
  eapply (datasets_features_and_labels id rotating_permutation 1%positive (1 # 4) session).
  vm_compute; reflexivity.
Defined.

(** X15: in the working copy of a run that returns, [previousTxType]
    holds no missing value, and every other column is a column of the
    input, untouched: missing values elsewhere stay. *)
Theorem datasets_fills_one_column {RandomState : Type}
    (RandomState_seed : nat → RandomState)
    (rng_permutation : RandomState → nat → list nat * RandomState)
    (data : py.loc) (test_size : Q) (σ σ' : py.state RandomState) (self : Datasets.t) :
  Datasets.__init__ RandomState_seed rng_permutation data test_size σ = Some (self, σ') →
  ∃ input working,
    py.heap σ !! data = Some input ∧
    py.heap σ' !! Datasets.data self = Some working ∧
    ∀ c, c ∈ pd.columns working →
      if decide (pd.name c = "previousTxType"%string)
      then pd.NaN ∉ pd.values c
      else c ∈ pd.columns input.
Proof.
  intros H.
  pose proof (init_Some _ _ _ _ _ _ _ H) as (X & filled & HX & Hs & _ & Hd & Hσ).
  apply split_frame_Some in Hs as (dropped & n_train & n_test & Hdr & Hf & _).
  exists X, filled. split; [done|].
  split; [rewrite Hd, Hσ; simpl; apply lookup_insert_eq|].
  apply fillna_column_Some in Hf as (_ & _ & Hc).
  apply drop_columns_Some in Hdr as (_ & _ & Hc').
  intros c Hin. rewrite Hc in Hin. apply list_elem_of_fmap in Hin as (c0 & -> & Hin).
  destruct (decide (pd.name c0 = "previousTxType"%string)) as [Hn|Hn].
  - unfold pdops.fillna. simpl. rewrite decide_True by done.
    intros Hnan. apply list_elem_of_fmap in Hnan as (v & Hv & _). by destruct v.
  - rewrite decide_False by done.
    rewrite Hc' in Hin. by apply list_elem_of_filter in Hin as [_ Hin].
Qed.

Lemma datasets_fills_one_column_witness :
  ∃ self σ',
    Datasets.__init__ id rotating_permutation 1%positive (1 # 4) session = Some (self, σ') ∧
    ∃ input working,
      py.heap session !! 1%positive = Some input ∧
      py.heap σ' !! Datasets.data self = Some working ∧
      ∀ c, c ∈ pd.columns working →
        if decide (pd.name c = "previousTxType"%string)
        then pd.NaN ∉ pd.values c
        else c ∈ pd.columns input.
Proof.
  eexists _, _. split; [vm_compute; reflexivity|].
  eapply (datasets_fills_one_column id rotating_permutation 1%positive (1 # 4) session).
  vm_compute; reflexivity.
Defined.

(** X16: the train and the test features of a run have the same column
    names and dtypes, so a selector of either mode picks the same columns
    from both. *)
Theorem datasets_same_schema {RandomState : Type}
    (RandomState_seed : nat → RandomState)
    (rng_permutation : RandomState → nat → list nat * RandomState)
    (data : py.loc) (test_size : Q) (σ σ' : py.state RandomState) (self : Datasets.t) :
  Datasets.__init__ RandomState_seed rng_permutation data test_size σ = Some (self, σ') →
  schema (Datasets.X_Train_DF self) = schema (Datasets.X_Test_DF self) ∧
  ∀ quantitative,
    matching_names quantitative (Datasets.X_Train_DF self)
    = matching_names quantitative (Datasets.X_Test_DF self).
Proof.
  intros H.
  pose proof (init_Some _ _ _ _ _ _ _ H) as (X & filled & _ & Hs & _).
  apply split_frame_Some in Hs
    as (dropped & n_train & n_test & _ & _ & _ & Htr & Hte & HXY & HXY').
  apply bind_Some in HXY as (X_Train & Hdt & HXY).
  apply bind_Some in HXY as (Y_Train & _ & HXY).
  apply bind_Some in HXY' as (X_Test & Hde & HXY').
  apply bind_Some in HXY' as (Y_Test & _ & HXY').
  injection HXY as HX1 _. injection HXY' as HX2 _.
  rewrite <- HX1, <- HX2.
  assert (Hsch : schema X_Train = schema X_Test).
  { rewrite (drop_columns_schema _ _ _ Hdt), (drop_columns_schema _ _ _ Hde).
    by rewrite (take_rows_schema _ _ _ Htr), (take_rows_schema _ _ _ Hte). }
  split; [done|]. intros q. by apply matching_names_schema.
Qed.

Lemma datasets_same_schema_witness :
  ∃ self σ',
    Datasets.__init__ id rotating_permutation 1%positive (1 # 4) session = Some (self, σ') ∧
    schema (Datasets.X_Train_DF self) = schema (Datasets.X_Test_DF self) ∧
    ∀ quantitative,
      matching_names quantitative (Datasets.X_Train_DF self)
      = matching_names quantitative (Datasets.X_Test_DF self).
Proof.
  eexists _, _. split; [vm_compute; reflexivity|].
  eapply (datasets_same_schema id rotating_permutation 1%positive (1 # 4) session).
  vm_compute; reflexivity.
Defined.

(** ** prevTxFeatures: frame, bounds and errors *)
Section prevTxFeatures_more.
Import pd features.

Lemma iloc_set_inv i j v data data' :
  iloc_set i j v data = Some data' →
  ∃ c, columns data !! j = Some c ∧ i < length (values c) ∧
       data' = mkDataFrame (index data)
                 (<[j := mkSeries (name c) (dt c) (<[i := v]> (values c))]> (columns data)).
Proof.
  unfold iloc_set. intros H. apply bind_Some in H as (c & Hc & H).
  case_decide; [|done]. injection H as <-. by exists c.
Qed.




Lemma iloc_set_columns i j v data data' :
  iloc_set i j v data = Some data' → length (columns data') = length (columns data).
Proof.
  intros H. apply iloc_set_inv in H as (c & _ & _ & ->). simpl. apply length_insert.
Qed.

Lemma step_inv lastK i data data' :
  prevTxFeatures_step lastK i data = Some data' →
  ∃ nums d1 d2,
    iloc_tail i 2 lastK data ≫= numbers = Some nums ∧
    iloc_set i 7 (series_min nums) data = Some d1 ∧
    iloc_set i 8 (series_mean nums) d1 = Some d2 ∧
    iloc_set i 9 (series_max nums) d2 = Some data'.
Proof.
  unfold prevTxFeatures_step. intros H.
  apply bind_Some in H as (tl & Htl & H). apply bind_Some in H as (nums & Hn & H).
  apply bind_Some in H as (d1 & H1 & H). apply bind_Some in H as (d2 & H2 & H).
  exists nums, d1, d2. rewrite Htl. simpl. done.
Qed.


Lemma step_needs_columns lastK i data data' :
  prevTxFeatures_step lastK i data = Some data' → 10 ≤ length (columns data).
Proof.
  intros H. apply step_inv in H as (nums & d1 & d2 & _ & H1 & H2 & H3).
  rewrite <- (iloc_set_columns _ _ _ _ _ H1), <- (iloc_set_columns _ _ _ _ _ H2).
  apply iloc_set_inv in H3 as (c & Hc & _). apply lookup_lt_Some in Hc. lia.
Qed.










End prevTxFeatures_more.





(** X19: on a frame with at least one row and fewer than ten columns
    [prevTxFeatures] raises, whatever the cells: the loop writes to
    columns 7, 8 and 9 by position. *)
Theorem prevTxFeatures_needs_ten_columns (lastK : nat) (data : pd.DataFrame) :
  0 < pd.len data → length (pd.columns data) < 10 →
  features.prevTxFeatures data lastK = None.
Proof.
  unfold features.prevTxFeatures. intros Hlen Hcols.
  destruct (pd.len data) as [|n]; [lia|]. simpl.
  destruct (features.prevTxFeatures_step lastK 0 data) as [d1|] eqn:E; [|done].
  apply step_needs_columns in E. lia.
Qed.

Lemma prevTxFeatures_needs_ten_columns_witness :
  features.prevTxFeatures sample_frame features.default_lastK = None.
Proof.
  apply (prevTxFeatures_needs_ten_columns features.default_lastK sample_frame).
  - vm_compute. lia.
  - vm_compute. lia.
Defined.

(** ** Confusion matrix and scores: totals, bounds, F1 *)
Section metrics_more.
Import metrics.

Lemma count_total y_true : ∀ y_pred,
  length y_true = length y_pred →
  count false false y_true y_pred + count false true y_true y_pred
  + count true false y_true y_pred + count true true y_true y_pred
  = length y_true.
Proof.
  induction y_true as [|a y_true IH]; intros [|b y_pred] Hlen; try done.
  injection Hlen as Hlen. rewrite !count_cons. specialize (IH y_pred Hlen).
  destruct a, b; repeat case_decide; simpl; try lia; naive_solver.
Qed.

(** A label that occurs in neither vector is counted nowhere. *)
Lemma count_absent i j y_true : ∀ y_pred,
  i ∉ y_true ∨ j ∉ y_pred → count i j y_true y_pred = 0.
Proof.
  induction y_true as [|a y_true IH]; intros [|b y_pred] H; try done.
  rewrite count_cons, IH.
  - case_decide as Hab; [|done]. destruct Hab as [-> ->].
    destruct H as [H|H]; exfalso; apply H; left.
  - destruct H as [H|H]; [left|right]; intros Hin; apply H; by right.
Qed.

Lemma tp_le_pred y_true y_pred :
  length y_true = length y_pred → tp_sum y_true y_pred ≤ pred_sum y_pred.
Proof. intros H. rewrite (pred_sum_split y_true y_pred H). unfold tp_sum. lia. Qed.

Lemma tp_le_true y_true y_pred :
  length y_true = length y_pred → tp_sum y_true y_pred ≤ true_sum y_true.
Proof. intros H. rewrite (true_sum_split y_true y_pred H). unfold tp_sum. lia. Qed.

Lemma prf_divide_bounds numerator denominator :
  numerator ≤ denominator →
  (0 <= prf_divide numerator denominator)%Q ∧ (prf_divide numerator denominator <= 1)%Q.
Proof.
  intros Hle. unfold prf_divide. case_decide as Hd; [done|].
  assert (Hpos : (0 < inject_Z (Z.of_nat denominator))%Q).
  { rewrite <- (Zlt_Qlt 0). lia. }
  split.
  - apply Qle_shift_div_l; [exact Hpos|]. rewrite Qmult_0_l.
    rewrite <- (Zle_Qle 0). lia.
  - apply Qle_shift_div_r; [exact Hpos|]. rewrite Qmult_1_l.
    rewrite <- Zle_Qle. lia.
Qed.

Lemma prf_divide_zero denominator : (prf_divide 0 denominator == 0)%Q.
Proof.
  unfold prf_divide. case_decide; [reflexivity|].
  unfold Qdiv. simpl. apply Qmult_0_l.
Qed.

Lemma prf_divide_pos numerator denominator :
  0 < numerator → numerator ≤ denominator →
  prf_divide numerator denominator = (QN numerator / QN denominator)%Q ∧
  (0 < QN numerator)%Q ∧ (0 < QN denominator)%Q.
Proof.
  intros Hn Hle. unfold prf_divide, QN. rewrite decide_False by lia.
  split; [done|]. split; rewrite <- (Zlt_Qlt 0); lia.
Qed.

Lemma QN_add a b : (QN (a + b) == QN a + QN b)%Q.
Proof. unfold QN. by rewrite Nat2Z.inj_add, inject_Z_plus. Qed.

End metrics_more.

(** X20: the entries of the confusion matrix of two vectors of the same
    length sum to that length, whether the matrix is two by two or, with
    a single label present, one by one: every sample is counted once. *)
Theorem confusion_matrix_total (y_true y_pred : list bool) (cm : list (list nat)) :
  metrics.confusion_matrix y_true y_pred = Some cm →
  sum_list (sum_list <$> cm) = length y_true.
Proof.
  unfold metrics.confusion_matrix. case_decide as Hlen; [|done]. intros [= <-].
  pose proof (count_total y_true y_pred Hlen) as Htot.
  unfold metrics.unique_labels. rewrite !filter_cons, filter_nil.
  destruct (decide (false ∈ y_true ++ y_pred)) as [Hf|Hf];
    destruct (decide (true ∈ y_true ++ y_pred)) as [Ht|Ht]; simpl.
  - lia.
  - rewrite not_elem_of_app in Ht.
    rewrite (count_absent false true), (count_absent true false),
      (count_absent true true) in Htot by tauto. lia.
  - rewrite not_elem_of_app in Hf.
    rewrite (count_absent false false), (count_absent false true),
      (count_absent true false) in Htot by tauto. lia.
  - rewrite not_elem_of_app in Hf. rewrite not_elem_of_app in Ht.
    rewrite (count_absent false false), (count_absent false true),
      (count_absent true false), (count_absent true true) in Htot by tauto. lia.
Qed.

Lemma confusion_matrix_total_witness :
  sum_list (sum_list <$> [[3]]) = length [true; true; true].
Proof.
  apply (confusion_matrix_total [true; true; true] [true; true; true] [[3]]).
  vm_compute; reflexivity.
Defined.

(** X21: whenever the precision and the recall score are returned, each
    lies between 0 and 1. *)
Theorem scores_between_0_and_1 (y_true y_pred : list bool) (precision recall : Q) :
  metrics.precision_score y_true y_pred = Some precision →
  metrics.recall_score y_true y_pred = Some recall →
  (0 <= precision)%Q ∧ (precision <= 1)%Q ∧ (0 <= recall)%Q ∧ (recall <= 1)%Q.
Proof.
  unfold metrics.precision_score, metrics.recall_score.
  case_decide as Hlen; [|done]. intros [= <-] [= <-].
  destruct (prf_divide_bounds _ _ (tp_le_pred _ _ Hlen)).
  destruct (prf_divide_bounds _ _ (tp_le_true _ _ Hlen)). done.
Qed.

Lemma scores_between_0_and_1_witness :
  (0 <= 1 # 2)%Q ∧ (1 # 2 <= 1)%Q ∧ (0 <= 1 # 3)%Q ∧ (1 # 3 <= 1)%Q.
Proof.
  apply (scores_between_0_and_1
           [true; false; true; false; true; false]
           [true; true; false; false; false; false]);
    vm_compute; reflexivity.
Defined.

(** X22: predictions that are all negative score precision 0 and recall
    0, whatever the true labels. *)
Theorem always_negative_scores_zero (y_true : list bool) :
  ∃ precision recall,
    metrics.precision_score y_true (replicate (length y_true) false) = Some precision ∧
    metrics.recall_score y_true (replicate (length y_true) false) = Some recall ∧
    (precision == 0)%Q ∧ (recall == 0)%Q.
Proof.
  unfold metrics.precision_score, metrics.recall_score.
  rewrite !decide_True by (by rewrite length_replicate).
  do 2 eexists. split; [reflexivity|]. split; [reflexivity|].
  assert (Htp : metrics.tp_sum y_true (replicate (length y_true) false) = 0).
  { apply count_absent. right. intros Hin. by apply elem_of_replicate in Hin as [? _]. }
  rewrite Htp. split; apply prf_divide_zero.
Qed.

(** X23: when the confusion matrix is the two-by-two table
    [[TN, FP], [FN, TP]], the F1 score is [TP / (TP + (FP + FN) / 2)], the
    formula the notebook gives for it: the score times that denominator
    is [TP], also when [TP] is 0. *)
Theorem f1_identity (y_true y_pred : list bool) (tn fp fn tp : nat) (f1 : Q) :
  metrics.confusion_matrix y_true y_pred = Some [[tn; fp]; [fn; tp]] →
  fscore.f1_score y_true y_pred = Some f1 →
  (f1 * (QN tp + (QN fp + QN fn) / 2) == QN tp)%Q.
Proof.
  intros Hcm Hf.
  apply confusion_matrix_2x2 in Hcm as (Hlen & _ & -> & -> & ->).
  unfold fscore.f1_score, metrics.precision_score, metrics.recall_score in Hf.
  rewrite !decide_True in Hf by done. cbn [mbind option_bind] in Hf.
  injection Hf as <-.
  rewrite (pred_sum_split y_true y_pred Hlen), (true_sum_split y_true y_pred Hlen).
  unfold metrics.tp_sum.
  set (a := metrics.count true true y_true y_pred).
  set (b := metrics.count false true y_true y_pred).
  set (c := metrics.count true false y_true y_pred).
  destruct (decide (a = 0)) as [Ha|Ha].
  - rewrite Ha, !Nat.add_0_r.
    assert (Hz : Qeq_bool (metrics.prf_divide 0 b + metrics.prf_divide 0 c) 0 = true).
    { apply Qeq_bool_iff. by rewrite !prf_divide_zero. }
    rewrite Hz, !prf_divide_zero. change (QN 0) with 0%Q. field.
  - destruct (prf_divide_pos a (b + a) ltac:(lia) ltac:(lia)) as (-> & Hpa & Hpb).
    destruct (prf_divide_pos a (c + a) ltac:(lia) ltac:(lia)) as (-> & _ & Hpc).
    assert (Hsum : (0 < QN a / QN (b + a) + QN a / QN (c + a))%Q).
    { rewrite <- (Qplus_0_r 0). apply Qplus_lt_le_compat.
      - apply Qlt_shift_div_l; [done|]. by rewrite Qmult_0_l.
      - apply Qle_shift_div_l; [done|]. rewrite Qmult_0_l. by apply Qlt_le_weak. }
    destruct (Qeq_bool _ 0) eqn:E.
    { apply Qeq_bool_iff in E. rewrite E in Hsum. by apply Qlt_irrefl in Hsum. }
    rewrite !QN_add in *.
    assert (Hb0 : (0 <= QN b)%Q) by (unfold QN; rewrite <- (Zle_Qle 0); lia).
    assert (Hc0 : (0 <= QN c)%Q) by (unfold QN; rewrite <- (Zle_Qle 0); lia).
    field. repeat split.
    + intros H0. rewrite H0 in Hpc. by apply Qlt_irrefl in Hpc.
    + intros H0. rewrite H0 in Hpb. by apply Qlt_irrefl in Hpb.
    + intros H0.
      assert (Hp : (0 < QN a * (QN c + QN a) + QN a * (QN b + QN a))%Q).
      { rewrite <- (Qplus_0_r 0). apply Qplus_lt_le_compat.
        - by apply Qmult_lt_0_compat.
        - apply Qlt_le_weak. by apply Qmult_lt_0_compat. }
      rewrite H0 in Hp. by apply Qlt_irrefl in Hp.
Qed.

Lemma f1_identity_witness :
  ((12 # 30) * (QN 1 + (QN 1 + QN 2) / 2) == QN 1)%Q.
Proof.
  apply (f1_identity
           [true; false; true; false; true; false]
           [true; true; false; false; false; false] 2 1 2 1 (12 # 30));
    vm_compute; reflexivity.
Defined.

(** ** The names of the prepared features *)
Section feature_names_facts.
Import pd feature_names.

Lemma first_occurrences_spec l : ∀ seen,
  NoDup (first_occurrences seen l) ∧
  ∀ v, v ∈ first_occurrences seen l ↔ v ∈ l ∧ v ∉ seen.
Proof.
  induction l as [|x l IH]; intros seen; simpl.
  - split; [constructor|]. intros v. rewrite elem_of_nil. tauto.
  - case_decide as Hx.
    + destruct (IH seen) as [Hnd Hel]. split; [done|].
      intros v. rewrite Hel, elem_of_cons. split; [tauto|].
      intros [[->|Hv] Hs]; tauto.
    + destruct (IH (x :: seen)) as [Hnd Hel]. split.
      * constructor; [|done]. rewrite Hel, elem_of_cons. tauto.
      * intros v. rewrite !elem_of_cons, Hel, elem_of_cons.
        destruct (decide (v = x)) as [->|Hne]; tauto.
Qed.

Lemma series_unique_length xs ys :
  (∀ v, v ∈ xs ↔ v ∈ ys) → length (series_unique xs) = length (np.unique ys).
Proof.
  intros H. destruct (first_occurrences_spec xs []) as [Hnd Hel].
  apply Permutation_length, NoDup_Permutation; [done|apply unique_NoDup|].
  intros v. unfold series_unique. rewrite Hel, elem_of_unique, H, elem_of_nil. tauto.
Qed.

Lemma block_width_multiclass col : 3 ≤ length (np.unique col) →
  block_width col = length (np.unique col).
Proof.
  unfold block_width. destruct (length (np.unique col)) as [|[|[|k]]]; lia.
Qed.

Lemma extend_length (cols : list Series) data : ∀ all labels,
  Forall (values_agree data) cols →
  data_prep_pipeline.as_labels (values <$> cols) = Some labels →
  ∃ names,
    extend all (name <$> cols) data = Some names ∧
    length names = length all + sum_list (block_width <$> labels).
Proof.
  induction cols as [|c cols IH]; intros all labels Hall Hl.
  - injection Hl as <-. exists all. split; [done|]. simpl. lia.
  - apply Forall_cons in Hall as [(s & xs & ys & Hg & Hxs & Hys & Hsame & H3) Hall].
    rewrite fmap_cons in Hl. unfold data_prep_pipeline.as_labels in Hl.
    cbn [mapM] in Hl.
    change (mapM (λ v, match v with Str s => Some s | _ => None end) (values c))
      with (mapM as_str (values c)) in Hl.
    rewrite Hys in Hl. cbn [mbind option_bind] in Hl.
    destruct (mapM (mapM _) (values <$> cols)) as [labels'|] eqn:El; [|done].
    cbn [mbind option_bind mret option_ret] in Hl. injection Hl as <-.
    rewrite fmap_cons. cbn [extend]. unfold column_labels. rewrite Hg. simpl.
    rewrite Hxs. simpl.
    destruct (IH (all ++ ((λ x, name c +:+ "_" +:+ x) <$> series_unique xs))
                labels' Hall El) as (names & -> & Hlen).
    exists names. split; [done|].
    rewrite Hlen, length_app, length_fmap, (series_unique_length xs ys Hsame).
    rewrite ?fmap_cons. cbn [fmap list_fmap sum_list sum_list_with].
    rewrite (block_width_multiclass ys H3).
    change (list_fmap (list string) nat block_width labels')
      with (block_width <$> labels').
    lia.
Qed.

Lemma pipeline_fit_transform_names sqrt self X self' out :
  NoDup (column_names X) → configured self →
  data_prep_pipeline.fit_transform sqrt self X = Some (self', out) →
  AttributeSelector.attribute_names (data_prep_pipeline.quant_selector self')
    = Some (name <$> quantitative_columns X) ∧
  AttributeSelector.attribute_names (data_prep_pipeline.qual_selector self')
    = Some (name <$> qualitative_columns X).
Proof.
  intros Hnd [Hq Hc] H.
  unfold data_prep_pipeline.fit_transform, data_prep_pipeline.quant_fit_transform,
    data_prep_pipeline.qual_fit_transform, AttributeSelector.fit_transform,
    AttributeSelector.fit in H.
  rewrite (transform_eq _ X Hnd), Hq in H. simpl in H.
  destruct (StandardScaler.fit_transform sqrt _ _) as [[scaler quant]|];
    simpl in H; [|done].
  rewrite (transform_eq _ X Hnd), Hc in H. simpl in H.
  destruct (data_prep_pipeline.as_labels _) as [labels|]; simpl in H; [|done].
  destruct (MyLabelBinarizer.fit_transform _ labels) as [qual|]; simpl in H; [|done].
  by injection H as <- _.
Qed.

End feature_names_facts.

(** X24: when the frame the names are read from agrees with every
    qualitative column of the frame the pipeline was fitted on (strings
    only, the same ones, three or more), the cell produces as many names
    as the prepared matrix has columns. *)
Theorem feature_names_match_columns (sqrt : Q → Q) (self self' : data_prep_pipeline.t)
    (X data : pd.DataFrame) (out : np.ndarray pd.cell) :
  pd.well_formed X → configured self →
  Forall (values_agree data) (qualitative_columns X) →
  data_prep_pipeline.fit_transform sqrt self X = Some (self', out) →
  ∃ names,
    feature_names.all_features self' data = Some names ∧
    length names = np.shape1 out.
Proof.
  intros Hwf Hconf Hagree H.
  destruct (pipeline_fit_transform_shape sqrt self X self' out Hwf Hconf H)
    as (labels & Hl & Hw & _).
  destruct (pipeline_fit_transform_names sqrt self X self' out (proj2 Hwf) Hconf H)
    as [Hqn Hcn].
  unfold feature_names.all_features. rewrite Hqn, Hcn. simpl.
  destruct (extend_length (qualitative_columns X) data
              (pd.name <$> quantitative_columns X) labels Hagree Hl)
    as (names & Hn & Hlen).
  exists names. split; [done|]. by rewrite Hlen, Hw, length_fmap.
Qed.

Lemma sample_frame_values_agree :
  Forall (values_agree sample_frame) (qualitative_columns sample_frame).
Proof.
  assert (E : qualitative_columns sample_frame
    = [ pd.mkSeries "txType" pd.object
          [pd.Str "PAYMENT"; pd.Str "DEBIT"; pd.Str "TRANSFER"];
        pd.mkSeries "previousTxType" pd.object
          [pd.Str "First"; pd.Str "PAYMENT"; pd.Str "DEBIT"] ])
    by (vm_compute; reflexivity).
  rewrite E. repeat constructor.
  - eexists _, ["PAYMENT"; "DEBIT"; "TRANSFER"]%string, _.
    split; [vm_compute; reflexivity|]. split; [reflexivity|]. split; [reflexivity|].
    split; [done|]. vm_compute. lia.
  - eexists _, ["First"; "PAYMENT"; "DEBIT"]%string, _.
    split; [vm_compute; reflexivity|]. split; [reflexivity|]. split; [reflexivity|].
    split; [done|]. vm_compute. lia.
Qed.

Lemma feature_names_match_columns_witness :
  ∃ self' out,
    data_prep_pipeline.fit_transform newton_sqrt data_prep_pipeline.__init__ sample_frame
      = Some (self', out) ∧
    ∃ names,
      feature_names.all_features self' sample_frame = Some names ∧
      length names = np.shape1 out.
Proof.
  eexists _, _. split; [vm_compute; reflexivity|].
  eapply (feature_names_match_columns newton_sqrt data_prep_pipeline.__init__).
  - exact sample_frame_well_formed.
  - split; reflexivity.
  - exact sample_frame_values_agree.
  - vm_compute; reflexivity.
Defined.

(** The names of that run: in order of first appearance, where the
    encoder's columns are in sorted order. *)
Example feature_names_sample :
  ∃ self' out,
    data_prep_pipeline.fit_transform newton_sqrt data_prep_pipeline.__init__ sample_frame
      = Some (self', out) ∧
    feature_names.all_features self' sample_frame
    = Some [ "txAmount"; "min7PrevTxAmount";
             "txType_PAYMENT"; "txType_DEBIT"; "txType_TRANSFER";
             "previousTxType_First"; "previousTxType_PAYMENT";
             "previousTxType_DEBIT" ]%string.
Proof.
  eexists _, _. split; vm_compute; reflexivity.
Qed.
